(** * KCIDB URL cache: the cache client and its two cloud-function entry points

    A shallow embedding of [kcidb/cache/__init__.py] (class [Client]) and of
    the cache part of [main.py] ([get_cache_client], [kcidb_cache_urls],
    [kcidb_cache_redirect]).

    Conventions of the embedding.
    - A Python [str] is represented by its UTF-8 encoding, a Rocq [string]
      (a sequence of 8-bit characters); [bytes] are a [string] as well, so
      that [url.encode()] is the identity on the representation.  Every
      [str] that reaches the cache in [main.py] comes out of a UTF-8
      decoder, hence has such an encoding.
    - A 32-bit word is a [Z] with the wrap-around written out.
    - Effects are explicit: a computation is a function of the environment
      (how the origin servers and the storage backend behave) and of the
      world (bucket contents, journal of operations), and it either returns
      or raises a Python exception. *)

From Stdlib Require Import ZArith Ascii String List Lia Bool.
From stdpp Require Import base option list gmap strings sorting.
Import ListNotations.

#[local] Open Scope string_scope.
#[local] Open Scope Z_scope.

(* ===================================================================== *)
(** ** Bytes and byte strings *)
(* ===================================================================== *)

Module Bytes.

(** The value of an 8-bit character, [ord(c)]. *)
Definition ord (c : ascii) : Z := Z.of_N (N_of_ascii c).

(** The character of a byte value, [chr(b)] for [0 <= b < 256]. *)
Definition chr (b : Z) : ascii := ascii_of_N (Z.to_N (b mod 256)).

Definition of_string (s : string) : list Z := map ord (list_ascii_of_string s).

Definition to_string (l : list Z) : string := string_of_list_ascii (map chr l).

(** One hexadecimal digit, lower case, as [hexdigest] and ["%02x"] print. *)
Definition hex_digit (d : Z) : ascii :=
  if d <? 10 then chr (48 + d) else chr (87 + d).

(** A byte rendered as two hexadecimal characters. *)
Definition hex2 (b : Z) : string :=
  String (hex_digit (b / 16)) (String (hex_digit (b mod 16)) EmptyString).

Definition hex (l : list Z) : string := String.concat "" (map hex2 l).

(** [s.endswith(suffix)]. *)
Definition endswith (s suffix : string) : bool :=
  let n := String.length s in
  let k := String.length suffix in
  (k <=? n)%nat && String.eqb (String.substring (n - k) k s) suffix.

End Bytes.

(* ===================================================================== *)
(** ** SHA-256 (FIPS 180-4), as [hashlib.sha256] computes it *)
(* ===================================================================== *)

Module SHA256.

Definition wrap (x : Z) : Z := x mod 2 ^ 32.

Definition add32 (x y : Z) : Z := wrap (x + y).

Definition rotr (n x : Z) : Z :=
  Z.lor (Z.shiftr x n) (wrap (Z.shiftl x (32 - n))).

Definition not32 (x : Z) : Z := Z.lxor x 0xffffffff.

Definition Ch (x y z : Z) : Z := Z.lxor (Z.land x y) (Z.land (not32 x) z).

Definition Maj (x y z : Z) : Z :=
  Z.lxor (Z.lxor (Z.land x y) (Z.land x z)) (Z.land y z).

Definition Sigma0 (x : Z) : Z := Z.lxor (Z.lxor (rotr 2 x) (rotr 13 x)) (rotr 22 x).
Definition Sigma1 (x : Z) : Z := Z.lxor (Z.lxor (rotr 6 x) (rotr 11 x)) (rotr 25 x).
Definition sigma0 (x : Z) : Z := Z.lxor (Z.lxor (rotr 7 x) (rotr 18 x)) (Z.shiftr x 3).
Definition sigma1 (x : Z) : Z := Z.lxor (Z.lxor (rotr 17 x) (rotr 19 x)) (Z.shiftr x 10).

(** The first sixty-four primes. *)
Definition primes : list Z :=
  [ 2; 3; 5; 7; 11; 13; 17; 19; 23; 29; 31; 37; 41; 43; 47; 53;
    59; 61; 67; 71; 73; 79; 83; 89; 97; 101; 103; 107; 109; 113; 127; 131;
    137; 139; 149; 151; 157; 163; 167; 173; 179; 181; 191; 193; 197; 199; 211; 223;
    227; 229; 233; 239; 241; 251; 257; 263; 269; 271; 277; 281; 283; 293; 307; 311 ].

(** The integer part of the [k]-th root of [x], found bit by bit from bit
    [n] down; [r] is the part found so far. *)
Fixpoint iroot (k : Z) (n : nat) (x r : Z) : Z :=
  match n with
  | O => r
  | S n' =>
      let c := r + 2 ^ Z.of_nat n' in
      if c ^ k <=? x then iroot k n' x c else iroot k n' x r
  end.

(** The first 32 bits of the fractional part of the [k]-th root of [p]. *)
Definition frac32 (k p : Z) : Z := wrap (iroot k 40 (p * 2 ^ (32 * k)) 0).

(** The round constants: from the cube roots of the primes. *)
Definition K : list Z := Eval vm_compute in map (frac32 3) primes.

(** The eight working variables, and the hash value between blocks. *)
Record regs := Regs {
  ra : Z; rb : Z; rc : Z; rd : Z; re : Z; rf : Z; rg : Z; rh : Z
}.

(** The initial hash value: from the square roots of the first primes. *)
Definition H0 : regs :=
  Eval vm_compute in
    Regs (frac32 2 2) (frac32 2 3) (frac32 2 5) (frac32 2 7)
         (frac32 2 11) (frac32 2 13) (frac32 2 17) (frac32 2 19).

(** The message with its padding: a one bit, zeros up to 56 modulo 64, and
    the length in bits as a 64-bit big-endian integer. *)
Definition be_bytes (n : nat) (x : Z) : list Z :=
  map (fun i => Z.shiftr x (8 * Z.of_nat i) mod 256) (rev (seq 0 n)).

Definition pad (msg : list Z) : list Z :=
  let len := Z.of_nat (length msg) in
  let zeros := Z.to_nat ((55 - len) mod 64) in
  msg ++ [0x80] ++ repeat 0 zeros ++ be_bytes 8 (8 * len).

(** Four bytes, most significant first, make a word. *)
Definition be_word (bs : list Z) : Z :=
  fold_left (fun acc b => acc * 256 + b) bs 0.

Fixpoint chunks (k n : nat) (l : list Z) : list (list Z) :=
  match n with
  | O => []
  | S n' => firstn k l :: chunks k n' (skipn k l)
  end.

(** The message schedule, newest word first: [ws] holds W(t-1) .. W(0). *)
Definition next_w (ws : list Z) : Z :=
  add32 (add32 (sigma1 (nth 1 ws 0)) (nth 6 ws 0))
        (add32 (sigma0 (nth 14 ws 0)) (nth 15 ws 0)).

Fixpoint extend (n : nat) (ws : list Z) : list Z :=
  match n with
  | O => ws
  | S n' => extend n' (next_w ws :: ws)
  end.

Definition schedule (block : list Z) : list Z :=
  rev (extend 48 (rev (map be_word (chunks 4 16 block)))).

Definition round (r : regs) (kw : Z * Z) : regs :=
  let t1 := add32 (add32 (add32 (rh r) (Sigma1 (re r)))
                         (add32 (Ch (re r) (rf r) (rg r)) (fst kw))) (snd kw) in
  let t2 := add32 (Sigma0 (ra r)) (Maj (ra r) (rb r) (rc r)) in
  Regs (add32 t1 t2) (ra r) (rb r) (rc r) (add32 (rd r) t1) (re r) (rf r) (rg r).

Definition compress (h : regs) (block : list Z) : regs :=
  let r := fold_left round (combine K (schedule block)) h in
  Regs (add32 (ra h) (ra r)) (add32 (rb h) (rb r))
       (add32 (rc h) (rc r)) (add32 (rd h) (rd r))
       (add32 (re h) (re r)) (add32 (rf h) (rf r))
       (add32 (rg h) (rg r)) (add32 (rh h) (rh r)).

Definition words (h : regs) : list Z :=
  [ra h; rb h; rc h; rd h; re h; rf h; rg h; rh h].

(** [hashlib.sha256(data).digest()]: 32 bytes. *)
Definition digest (msg : list Z) : list Z :=
  let p := pad msg in
  let h := fold_left compress (chunks 64 (length p / 64) p) H0 in
  flat_map (be_bytes 4) (words h).

(** [hashlib.sha256(data).hexdigest()]: 64 hexadecimal characters. *)
Definition hexdigest (data : string) : string :=
  Bytes.hex (digest (Bytes.of_string data)).

End SHA256.

#[global] Arguments SHA256.hexdigest : simpl never.

(* ===================================================================== *)
(** ** Python values, exceptions and the library functions the code calls *)
(* ===================================================================== *)

Module Py.

(** The exception classes that occur in the modelled code.
    [RequestException] stands for [requests.exceptions.RequestException]
    and all of its subclasses (connection errors, timeouts, invalid URLs);
    [GoogleError] for the errors of the storage and credential libraries. *)
Inductive exn_class :=
| AssertionError
| KeyError
| ValueError
| UnicodeDecodeError
| BinasciiError
| RequestException
| GoogleError.

Record exn := Exn { exn_cls : exn_class; exn_msg : string }.

(** [isinstance(err, requests.exceptions.RequestException)]. *)
Definition is_RequestException (e : exn) : bool :=
  match exn_cls e with RequestException => true | _ => false end.

(** A computation step either returns a value or raises. *)
Inductive outcome (A : Type) :=
| Ret (a : A)
| Raise (e : exn).
Arguments Ret {A} a.
Arguments Raise {A} e.

(** The dynamically typed values the resolver is called with. *)
Inductive obj :=
| None_
| Bool (b : bool)
| Int (z : Z)
| Str (s : string)
| BytesObj (b : string)
| Timedelta (microseconds : Z).

(** [isinstance(o, str)]. *)
Definition isinstance_str (o : obj) : bool :=
  match o with Str _ => true | _ => false end.

(** [isinstance(o, datetime.timedelta)]. *)
Definition isinstance_timedelta (o : obj) : bool :=
  match o with Timedelta _ => true | _ => false end.

(** [o is None]. *)
Definition is_None (o : obj) : bool :=
  match o with None_ => true | _ => false end.

(** [c.lower()] on an ASCII letter; header names are ASCII. *)
Definition lower_char (c : ascii) : ascii :=
  let n := Bytes.ord c in
  if (65 <=? n) && (n <=? 90) then Bytes.chr (n + 32) else c.

Fixpoint lower (s : string) : string :=
  match s with
  | EmptyString => EmptyString
  | String c s' => String (lower_char c) (lower s')
  end.

(** [s.rsplit(sep, 1)[-1]]: what follows the last [sep], or all of [s]
    when [sep] does not occur.  [acc] is the current candidate. *)
Fixpoint rsplit_last_aux (sep : ascii) (acc : string) (s : string) : string :=
  match s with
  | EmptyString => acc
  | String c s' =>
      if Ascii.eqb c sep then rsplit_last_aux sep s' s'
      else rsplit_last_aux sep acc s'
  end.

Definition rsplit_last (sep : ascii) (s : string) : string :=
  rsplit_last_aux sep s s.

(** [b.decode("ascii")] succeeds exactly on bytes below 128. *)
Definition is_ascii (s : string) : bool :=
  forallb (fun c => Bytes.ord c <? 128) (list_ascii_of_string s).

(** Line boundaries of [str.splitlines]: LF, CR, CR LF, VT, FF, FS, GS, RS,
    NEL (U+0085), LS (U+2028) and PS (U+2029), the last three in their UTF-8
    encodings C2 85, E2 80 A8 and E2 80 A9. *)
Definition is_break1 (n : Z) : bool :=
  (n =? 10) || (n =? 11) || (n =? 12) || (n =? 28) || (n =? 29) || (n =? 30).

Definition flush (cur : list ascii) : string := string_of_list_ascii (rev cur).

(** [cur] is the current line, last character first. *)
Fixpoint splitlines_aux (cur : list ascii) (s : list ascii) : list string :=
  match s with
  | [] => match cur with [] => [] | _ => [flush cur] end
  | c :: rest =>
      let n := Bytes.ord c in
      if n =? 13 then
        match rest with
        | c2 :: rest' =>
            if Bytes.ord c2 =? 10 then flush cur :: splitlines_aux [] rest'
            else flush cur :: splitlines_aux [] rest
        | [] => flush cur :: splitlines_aux [] rest
        end
      else if is_break1 n then flush cur :: splitlines_aux [] rest
      else if n =? 0xC2 then
        match rest with
        | c2 :: rest' =>
            if Bytes.ord c2 =? 0x85 then flush cur :: splitlines_aux [] rest'
            else splitlines_aux (c :: cur) rest
        | [] => splitlines_aux (c :: cur) rest
        end
      else if n =? 0xE2 then
        match rest with
        | c2 :: c3 :: rest' =>
            if (Bytes.ord c2 =? 0x80)
               && ((Bytes.ord c3 =? 0xA8) || (Bytes.ord c3 =? 0xA9))
            then flush cur :: splitlines_aux [] rest'
            else splitlines_aux (c :: cur) rest
        | _ => splitlines_aux (c :: cur) rest
        end
      else splitlines_aux (c :: cur) rest
  end.

(** [s.splitlines()]. *)
Definition splitlines (s : string) : list string :=
  splitlines_aux [] (list_ascii_of_string s).

(** Well-formed UTF-8 (Unicode, table 3-7): what [bytes.decode()] accepts. *)
Definition cont (lo hi : Z) (b : Z) : bool := (lo <=? b) && (b <=? hi).

Fixpoint utf8_valid (bs : list Z) : bool :=
  match bs with
  | [] => true
  | b0 :: r0 =>
      if b0 <? 0x80 then utf8_valid r0
      else if cont 0xC2 0xDF b0 then
        match r0 with
        | b1 :: r1 => cont 0x80 0xBF b1 && utf8_valid r1
        | _ => false
        end
      else if cont 0xE0 0xEF b0 then
        match r0 with
        | b1 :: b2 :: r2 =>
            cont (if b0 =? 0xE0 then 0xA0 else 0x80)
                 (if b0 =? 0xED then 0x9F else 0xBF) b1
            && cont 0x80 0xBF b2 && utf8_valid r2
        | _ => false
        end
      else if cont 0xF0 0xF4 b0 then
        match r0 with
        | b1 :: b2 :: b3 :: r3 =>
            cont (if b0 =? 0xF0 then 0x90 else 0x80)
                 (if b0 =? 0xF4 then 0x8F else 0xBF) b1
            && cont 0x80 0xBF b2 && cont 0x80 0xBF b3 && utf8_valid r3
        | _ => false
        end
      else false
  end.

(** The library functions whose text is not part of the repository.  The
    theorems hold for every runtime; [reference_runtime] below is the one
    the examples are evaluated with. *)
Class Runtime := {
  (** [int(s)] on a [str]; [None] when it raises [ValueError]. *)
  int_of_str : string -> option Z;
  (** [repr(s)] on a [str], as the format [%.200R] prints it. *)
  repr : string -> string;
  (** [email.header.Header(s, "utf-8").encode()]. *)
  header_encode : string -> string;
  (** [urllib.parse.urlparse(u).path]. *)
  urlparse_path : string -> string;
  (** [urllib.parse.unquote(s)]. *)
  unquote : string -> string;
  (** [base64.b64decode(s)]. *)
  b64decode : string -> outcome string
}.

End Py.
Export Py.

(* ===================================================================== *)
(** ** The world outside the program *)
(* ===================================================================== *)

(** The quotation mark, for strings that contain one. *)
Definition dquote : string := String (Bytes.chr 34) EmptyString.

(** A [requests.Response]: [headers] is a case-insensitive dictionary,
    represented by a map whose keys are the lower-cased header names. *)
Record Response := {
  status_code : Z;
  headers : gmap string string;
  response_url : string;
  response_content : string
}.

(** A stored object: contents, content type and content disposition. *)
Record Blob := {
  blob_contents : string;
  blob_content_type : string;
  blob_content_disposition : string
}.

(** [google.auth] credentials: the bearer token, whether it has expired,
    and the identity they belong to. *)
Record Credentials := {
  token : option string;
  expired : bool;
  service_account_email : string
}.

(** The arguments of [Blob.generate_signed_url]. *)
Record SignRequest := {
  sign_bucket : string;
  sign_object : string;
  sign_version : string;
  sign_method : string;
  sign_expiration : Z;
  sign_email : string;
  sign_access_token : option string
}.

Inductive level := DEBUG | INFO | WARNING.

Inductive logarg :=
| ArgStr (s : string)
| ArgInt (z : Z).

(** The journal records every operation on the outside world, in order. *)
Inductive event :=
| EvStorageClient
| EvExists (bucket name : string)
| EvUpload (bucket name : string) (b : Blob) (stored : bool)
| EvRequest (method url : string) (timeout : Z) (allow_redirects : bool)
| EvAuthDefault
| EvRefresh
| EvSign (r : SignRequest)
| EvLog (lvl : level) (fmt : string) (args : list logarg).

(** [kcidb.cache.Client]: the fields of [self]. *)
Record Client := {
  bucket_name : string;
  max_store_size : Z
}.

(** How the outside world behaves.  The index is the moment of the
    operation (the number of journal entries before it), so that any
    sequence of behaviours is some environment. *)
Record Env := {
  (** the environment variable [KCIDB_CACHE_BUCKET_NAME] *)
  CACHE_BUCKET_NAME : string;
  (** what [requests.request(method, url)] does *)
  origin : nat -> string -> string -> outcome Response;
  (** the error of the storage backend at that moment, if any *)
  backend_fault : nat -> option exn;
  (** what [google.auth.default()[0]] is *)
  auth_default : nat -> outcome Credentials;
  (** the credentials after [credentials.refresh(request)] *)
  auth_refresh : nat -> Credentials -> outcome Credentials;
  (** what the signing service answers *)
  signer : nat -> SignRequest -> outcome string
}.

(** The state: the bucket contents, the journal, the module-level
    [_CACHE_CLIENT] of [main.py], and the arguments of the calls of
    [Client.store] so far (a ghost field: nothing reads it). *)
Record World := {
  objects : gmap (string * string) Blob;
  journal : list event;
  _CACHE_CLIENT : option Client;
  store_calls : list string
}.

Definition now (w : World) : nat := length (journal w).

(** [o is not None]. *)
Definition has_value {A} (o : option A) : bool :=
  match o with Some _ => true | None => false end.

Definition record (e : event) (w : World) : World :=
  {| objects := objects w; journal := journal w ++ [e];
     _CACHE_CLIENT := _CACHE_CLIENT w; store_calls := store_calls w |}.

Definition put_object (k : string * string) (b : Blob) (w : World) : World :=
  {| objects := <[k := b]> (objects w); journal := journal w;
     _CACHE_CLIENT := _CACHE_CLIENT w; store_calls := store_calls w |}.

Definition set_cache_client (c : Client) (w : World) : World :=
  {| objects := objects w; journal := journal w;
     _CACHE_CLIENT := Some c; store_calls := store_calls w |}.

Definition note_store_call (url : string) (w : World) : World :=
  {| objects := objects w; journal := journal w;
     _CACHE_CLIENT := _CACHE_CLIENT w; store_calls := store_calls w ++ [url] |}.

(* ===================================================================== *)
(** ** Computations *)
(* ===================================================================== *)

Definition M (A : Type) : Type := Env -> World -> outcome A * World.

Definition run {A} (m : M A) (E : Env) (w : World) : outcome A * World := m E w.

#[global] Instance M_ret : MRet M := fun A a E w => (Ret a, w).

#[global] Instance M_bind : MBind M := fun A B f m E w =>
  match m E w with
  | (Ret a, w') => f a E w'
  | (Raise e, w') => (Raise e, w')
  end.

Definition raise {A} (e : exn) : M A := fun E w => (Raise e, w).

(** [try: body except <caught> as err: handler(err)]. *)
Definition try_except {A} (body : M A) (caught : exn -> bool)
    (handler : exn -> M A) : M A := fun E w =>
  match body E w with
  | (Raise e, w') => if caught e then handler e E w' else (Raise e, w')
  | r => r
  end.

(** [for x in l: f(x)]. *)
Fixpoint for_each {A} (f : A -> M unit) (l : list A) : M unit :=
  match l with
  | [] => mret tt
  | x :: l' => f x ;; for_each f l'
  end.

(** [LOGGER.debug], [LOGGER.info], [LOGGER.warning]. *)
Definition log (lvl : level) (fmt : string) (args : list logarg) : M unit :=
  fun E w => (Ret tt, record (EvLog lvl fmt args) w).

(** [storage.Client()]. *)
Definition storage_Client : M unit := fun E w =>
  (match backend_fault E (now w) with Some e => Raise e | None => Ret tt end,
   record EvStorageClient w).

(** [client.bucket(bucket).blob(name).exists()]. *)
Definition blob_exists (bucket name : string) : M bool := fun E w =>
  (match backend_fault E (now w) with
   | Some e => Raise e
   | None => Ret (has_value (objects w !! (bucket, name)))
   end,
   record (EvExists bucket name) w).

(** [blob.upload_from_string(contents, content_type=...)], the blob's
    [content_disposition] having been set. *)
Definition blob_upload (bucket name : string) (b : Blob) : M unit := fun E w =>
  match backend_fault E (now w) with
  | Some e => (Raise e, record (EvUpload bucket name b false) w)
  | None => (Ret tt, record (EvUpload bucket name b true)
                            (put_object (bucket, name) b w))
  end.

(** [requests.head(url, timeout=10, allow_redirects=True)] and
    [requests.get(url, timeout=10, allow_redirects=True)]. *)
Definition requests_request (method url : string) : M Response := fun E w =>
  (origin E (now w) method url, record (EvRequest method url 10 true) w).

Definition requests_head : string -> M Response := requests_request "HEAD".
Definition requests_get : string -> M Response := requests_request "GET".

(** [google.auth.default()[0]]. *)
Definition google_auth_default : M Credentials := fun E w =>
  (auth_default E (now w), record EvAuthDefault w).

(** [credentials.refresh(google.auth.transport.requests.Request())]: the
    credentials object is updated in place. *)
Definition credentials_refresh (c : Credentials) : M Credentials := fun E w =>
  (auth_refresh E (now w) c, record EvRefresh w).

(** [blob.generate_signed_url(...)]. *)
Definition generate_signed_url (r : SignRequest) : M string := fun E w =>
  (signer E (now w) r, record (EvSign r) w).

(** [d[key]] and [d.get(key)] on response headers. *)
Definition headers_get (h : gmap string string) (key : string) : option string :=
  h !! lower key.

Definition headers_getitem (h : gmap string string) (key : string) : M string :=
  match headers_get h key with
  | Some v => mret v
  | None => raise (Exn KeyError (lower key))
  end.

(** [int(s)]; the message of its [ValueError] ends in the literal. *)
Definition int `{Runtime} (s : string) : M Z :=
  match int_of_str s with
  | Some n => mret n
  | None =>
      raise (Exn ValueError
               ("invalid literal for int() with base 10: " ++ repr s))
  end.

(** The outcome of a pure library call, as a computation. *)
Definition lift {A} (o : outcome A) : M A := fun E w => (o, w).

(** Reading and assigning the global [_CACHE_CLIENT]; reading the
    configured bucket name. *)
Definition read_CACHE_CLIENT : M (option Client) :=
  fun E w => (Ret (_CACHE_CLIENT w), w).

Definition assign_CACHE_CLIENT (c : Client) : M unit :=
  fun E w => (Ret tt, set_cache_client c w).

Definition read_CACHE_BUCKET_NAME : M string :=
  fun E w => (Ret (CACHE_BUCKET_NAME E), w).

(** Ghost step: the entry into [Client.store]. *)
Definition enter_store (url : string) : M unit :=
  fun E w => (Ret tt, note_store_call url w).

Definition assert_ (b : bool) : M unit :=
  if b then mret tt else raise (Exn AssertionError "").

(** The [str] inside a value known to be one. *)
Definition str_value (o : obj) : string :=
  match o with Str s => s | _ => "" end.

(** Truth value of a [str]: non-empty. *)
Definition nonempty (s : string) : bool := negb (String.eqb s "").

(* ===================================================================== *)
(** ** [kcidb.cache.Client] *)
(* ===================================================================== *)

Module Cache.

Section Methods.
Context `{Runtime}.

(** [Client.__init__]. *)
Definition __init__ (bucket_name : string) (max_store_size : Z) : M Client :=
  storage_Client ;;
  mret {| bucket_name := bucket_name; max_store_size := max_store_size |}.

Definition _extract_content_disposition (response : Response) : string :=
  match headers_get (headers response) "Content-Disposition" with
  | Some content_disposition => content_disposition
  | None =>
      let parsed_path := urlparse_path (response_url response) in
      let original_filename := rsplit_last "/" parsed_path in
      if nonempty original_filename then
        let encoded_filename := header_encode original_filename in
        "attachment; filename=" ++ dquote ++ encoded_filename ++ dquote
      else "attachment"
  end.

Definition _format_object_name (url : string) : string :=
  SHA256.hexdigest url.

(** The part of [store] inside [try], up to its [return]s: [None] when it
    returned, [Some response] when control reaches the warning that
    follows the outer [if]. *)
Definition store_attempt (self : Client) (url object_name : string)
    : M (option Response) :=
  response ← requests_head url;
  if status_code response =? 200 then
    content_type ← headers_getitem (headers response) "Content-Type";
    match headers_get (headers response) "Content-Length" with
    | None =>
        log WARNING "No Content-Length for %r, not caching." [ArgStr url] ;;
        mret None
    | Some content_length =>
        content_length ← int content_length;
        if content_length >? max_store_size self then
          log WARNING
              "URL %r size (%d) exceeds max_store_size (%d), not caching."
              [ArgStr url; ArgInt content_length;
               ArgInt (max_store_size self)] ;;
          mret None
        else
          response ← requests_get url;
          if status_code response =? 200 then
            let contents := response_content response in
            let content_disposition := _extract_content_disposition response in
            blob_upload (bucket_name self) object_name
              {| blob_contents := contents;
                 blob_content_type := content_type;
                 blob_content_disposition := content_disposition |} ;;
            log INFO "URL %r successfully cached." [ArgStr url] ;;
            mret None
          else mret (Some response)
    end
  else mret (Some response).

Definition store (self : Client) (url : string) : M unit :=
  enter_store url ;;
  let object_name := _format_object_name url in
  if negb (Bytes.endswith object_name "00") then mret tt
  else
    present ← blob_exists (bucket_name self) object_name;
    if present : bool then
      log DEBUG "URL %r already exists, not caching." [ArgStr url]
    else
      try_except
        (fell ← store_attempt self url object_name;
         match fell with
         | None => mret tt
         | Some response =>
             log WARNING "Failed to download URL %r. Status code: %d"
                 [ArgStr url; ArgInt (status_code response)]
         end)
        is_RequestException
        (fun err =>
           log WARNING "Error downloading URL %r: %s"
               [ArgStr url; ArgStr (exn_msg err)]).

Definition _format_public_url (self : Client) (url : string) : string :=
  "https://storage.googleapis.com/" ++ bucket_name self ++ "/"
  ++ _format_object_name url.

Definition map (self : Client) (url ttl : obj) : M (option string) :=
  assert_ (isinstance_str url) ;;
  assert_ (is_None ttl || isinstance_timedelta ttl) ;;
  let url := str_value url in
  let object_name := _format_object_name url in
  present ← blob_exists (bucket_name self) object_name;
  if present : bool then
    if is_None ttl then mret (Some (_format_public_url self url))
    else
      credentials ← google_auth_default;
      credentials ← (if has_value (token credentials)
                     then mret credentials
                     else credentials_refresh credentials);
      signed ← generate_signed_url
        {| sign_bucket := bucket_name self; sign_object := object_name;
           sign_version := "v4"; sign_method := "GET";
           sign_expiration := match ttl with Timedelta us => us | _ => 0 end;
           sign_email := service_account_email credentials;
           sign_access_token := token credentials |};
      mret (Some signed)
  else mret None.

(** [is_stored]. *)
Definition is_stored (self : Client) (url : string) : M bool :=
  blob_exists (bucket_name self) (_format_object_name url).

End Methods.
End Cache.

(* ===================================================================== *)
(** ** [main.py]: the cache functions *)
(* ===================================================================== *)

Module Main.

Section Functions.
Context `{Runtime}.

Definition get_cache_client : M Client :=
  cached ← read_CACHE_CLIENT;
  match cached with
  | Some c => mret c
  | None =>
      bucket ← read_CACHE_BUCKET_NAME;
      c ← Cache.__init__ bucket (5 * 1024 * 1024);
      assign_CACHE_CLIENT c ;;
      mret c
  end.

(** [event['data']]. *)
Definition event_getitem (event : gmap string string) (key : string) : M string :=
  match event !! key with
  | Some v => mret v
  | None => raise (Exn KeyError key)
  end.

(** [b.decode()]: UTF-8, strict. *)
Definition bytes_decode (b : string) : M string :=
  if utf8_valid (Bytes.of_string b) then mret b
  else raise (Exn UnicodeDecodeError "utf-8").

(** [b.decode("ascii")]. *)
Definition bytes_decode_ascii (b : string) : M string :=
  if is_ascii b then mret b
  else raise (Exn UnicodeDecodeError "ascii").

Definition kcidb_cache_urls (event : gmap string string) (context : unit)
    : M unit :=
  data ← event_getitem event "data";
  raw ← lift (b64decode data);
  pubsub_message ← bytes_decode raw;
  cache ← get_cache_client;
  for_each (Cache.store cache) (splitlines pubsub_message).

Definition CACHE_REDIRECT_TTL : obj := Timedelta (10 * 1000000).

Record Request := {
  method : string;
  query_string : string
}.

Definition kcidb_cache_redirect (request : Request)
    : M (string * Z * gmap string string) :=
  if String.eqb (method request) "GET" then
    decoded ← bytes_decode_ascii (query_string request);
    let url_to_fetch := unquote decoded in
    log DEBUG "URL %r" [ArgStr url_to_fetch] ;;
    if negb (nonempty url_to_fetch) then
      let response_body :=
        "Provide a valid URL to query from the caching system." in
      mret (response_body, 400, ∅)
    else
      cache_client ← get_cache_client;
      cache ← Cache.map cache_client (Str url_to_fetch) CACHE_REDIRECT_TTL;
      match cache with
      | Some address =>
          if nonempty address then
            log INFO "Redirecting to the cache at %r" [ArgStr address] ;;
            mret ("", 302, {[ "Location" := address ]})
          else
            log INFO "Redirecting to the origin at %r" [ArgStr url_to_fetch] ;;
            mret ("", 302, {[ "Location" := url_to_fetch ]})
      | None =>
          log INFO "Redirecting to the origin at %r" [ArgStr url_to_fetch] ;;
          mret ("", 302, {[ "Location" := url_to_fetch ]})
      end
  else
    let response_body := "Method not allowed." in
    mret (response_body, 405, {[ "Allow" := "GET" ]}).

End Functions.
End Main.

(* ===================================================================== *)
(** ** [kcidb.cache.Client]: [fetch] and [empty] *)
(* ===================================================================== *)

Module Contents.

(** The backend operations that only [fetch] and [empty] perform.  They
    are journalled beside the world, in a ledger. *)
Inductive op :=
| OpDownload (bucket name : string)
| OpList (bucket : string)
| OpDelete (bucket name : string).

Record Ledger := {
  world : World;
  ops : list op
}.

(** The moment of the next operation: every operation, of either journal,
    takes one tick. *)
Definition clock (l : Ledger) : nat := (length (ops l) + now (world l))%nat.

Definition note (o : op) (l : Ledger) : Ledger :=
  {| world := world l; ops := ops l ++ [o] |}.

Definition remove_object (k : string * string) (l : Ledger) : Ledger :=
  {| world := {| objects := delete k (objects (world l));
                 journal := journal (world l);
                 _CACHE_CLIENT := _CACHE_CLIENT (world l);
                 store_calls := store_calls (world l) |};
     ops := ops l |}.

(** The environment as seen [k] ticks later. *)
Definition later (k : nat) (E : Env) : Env :=
  {| CACHE_BUCKET_NAME := CACHE_BUCKET_NAME E;
     origin := fun n => origin E (k + n);
     backend_fault := fun n => backend_fault E (k + n);
     auth_default := fun n => auth_default E (k + n);
     auth_refresh := fun n => auth_refresh E (k + n);
     signer := fun n => signer E (k + n) |}.

Definition M2 (A : Type) : Type := Env -> Ledger -> outcome A * Ledger.

Definition run2 {A} (m : M2 A) (E : Env) (l : Ledger) : outcome A * Ledger :=
  m E l.

#[global] Instance M2_ret : MRet M2 := fun A a E l => (Ret a, l).

#[global] Instance M2_bind : MBind M2 := fun A B f m E l =>
  match m E l with
  | (Ret a, l') => f a E l'
  | (Raise e, l') => (Raise e, l')
  end.

(** A computation on the world, run at the ledger's clock. *)
Definition of_M {A} (m : M A) : M2 A := fun E l =>
  match m (later (length (ops l)) E) (world l) with
  | (r, w') => (r, {| world := w'; ops := ops l |})
  end.

(** [for x in l: f(x)]. *)
Fixpoint for_each2 {A} (f : A -> M2 unit) (l : list A) : M2 unit :=
  match l with
  | [] => mret tt
  | x :: l' => f x ;; for_each2 f l'
  end.

Definition not_found (name : string) : exn :=
  Exn GoogleError ("404 No such object: " ++ name).

(** [blob.download_as_bytes()]. *)
Definition download_as_bytes (bucket name : string) : M2 string := fun E l =>
  (match backend_fault E (clock l) with
   | Some e => Raise e
   | None =>
       match objects (world l) !! (bucket, name) with
       | Some b => Ret (blob_contents b)
       | None => Raise (not_found name)
       end
   end,
   note (OpDownload bucket name) l).

(** The order of a listing: by name, byte by byte. *)
Definition name_le (a b : string) : Prop := Is_true (String.leb a b).

#[global] Instance name_le_dec (a b : string) : Decision (name_le a b).
Proof. unfold name_le. apply _. Defined.

(** The names of the objects of a bucket, in the order of a listing. *)
Definition names_in (bucket : string) (m : gmap (string * string) Blob)
    : list string :=
  merge_sort name_le
    (elements
       (set_omap (fun k : string * string =>
                    if decide (k.1 = bucket) then Some k.2 else None)
                 (dom m) : gset string)).

(** [client.bucket(bucket).list_blobs()], read to the end. *)
Definition list_blobs (bucket : string) : M2 (list string) := fun E l =>
  (match backend_fault E (clock l) with
   | Some e => Raise e
   | None => Ret (names_in bucket (objects (world l)))
   end,
   note (OpList bucket) l).

(** [blob.delete()]. *)
Definition blob_delete (bucket name : string) : M2 unit := fun E l =>
  match backend_fault E (clock l) with
  | Some e => (Raise e, note (OpDelete bucket name) l)
  | None =>
      match objects (world l) !! (bucket, name) with
      | Some _ =>
          (Ret tt, note (OpDelete bucket name) (remove_object (bucket, name) l))
      | None => (Raise (not_found name), note (OpDelete bucket name) l)
      end
  end.

Definition fetch (self : Client) (url : string) : M2 (option string) :=
  let object_name := Cache._format_object_name url in
  present ← of_M (blob_exists (bucket_name self) object_name);
  if present : bool then
    contents ← download_as_bytes (bucket_name self) object_name;
    mret (Some contents)
  else mret None.

Definition empty (self : Client) : M2 unit :=
  blobs ← list_blobs (bucket_name self);
  for_each2 (fun name => blob_delete (bucket_name self) name) blobs.

(** A ledger that starts at a world. *)
Definition at_world (w : World) : Ledger := {| world := w; ops := [] |}.

End Contents.

(* ===================================================================== *)
(** ** [main.py]: [extract_fields] *)
(* ===================================================================== *)

Module Fields.

(** The values of the specification and of the I/O data: JSON values,
    with [True] among the booleans and the integers for the numbers (the
    function never looks inside a scalar).  A dictionary is the list of
    its items in insertion order, the keys all different. *)
#[local] Set Warnings "-register-all".
Inductive value :=
| VNone
| VBool (b : bool)
| VInt (z : Z)
| VStr (s : string)
| VList (elems : list value)
| VDict (items : list (string * value)).

(** What a generator does when it is run to its end: the values it
    yields, and the exception that ends it, if one does. *)
Definition gen : Type := list value * option exn.

Definition gen_nil : gen := ([], None).

Definition gen_yield (v : value) : gen := ([v], None).

Definition gen_raise (e : exn) : gen := ([], Some e).

(** One generator after the other. *)
Definition gen_seq (g1 g2 : gen) : gen :=
  match g1 with
  | (xs, None) => ((xs ++ fst g2)%list, snd g2)
  | (xs, Some e) => (xs, Some e)
  end.

Definition gen_concat (gs : list gen) : gen := fold_right gen_seq gen_nil gs.

(** [key in d] and [d[key]]. *)
Fixpoint dict_get (d : list (string * value)) (key : string) : option value :=
  match d with
  | [] => None
  | (k, v) :: d' => if String.eqb k key then Some v else dict_get d' key
  end.

Fixpoint extract_fields (spec data : value) {struct spec} : gen :=
  gen_seq
    (match spec with
     | VBool true => gen_yield data
     | _ => gen_nil
     end)
    (match spec, data with
     | VDict spec_items, VDict data_items =>
         (fix each (l : list (string * value)) : gen :=
            match l with
            | [] => gen_nil
            | (obj_type, obj_spec) :: l' =>
                gen_seq
                  (match dict_get data_items obj_type with
                   | Some d => extract_fields obj_spec d
                   | None => gen_nil
                   end)
                  (each l')
            end) spec_items
     | VList spec_elems, VList data_elems =>
         match spec_elems with
         | [obj_specs] =>
             gen_concat (List.map (extract_fields obj_specs) data_elems)
         | _ => gen_raise (Exn AssertionError "")
         end
     | _, _ => gen_nil
     end).

Definition url_files : value := VList [VDict [("url", VBool true)]].

Definition URL_FIELDS_SPEC : value :=
  VDict
    [ ("checkouts",
       VList [VDict [("patchset_files", url_files);
                     ("log_url", VBool true)]]);
      ("builds",
       VList [VDict [("input_files", url_files);
                     ("output_files", url_files);
                     ("config_url", VBool true);
                     ("log_url", VBool true)]]);
      ("tests",
       VList [VDict [("output_files", url_files);
                     ("log_url", VBool true)]]) ].

End Fields.

(* ===================================================================== *)
(** ** A reference runtime and concrete scenarios *)
(* ===================================================================== *)

Module Reference.

(** [int(s)] on ASCII input: optional blanks around an optional sign and
    decimal digits, single underscores allowed between digits. *)
Definition is_space (n : Z) : bool :=
  (n =? 32) || ((9 <=? n) && (n <=? 13)) || ((28 <=? n) && (n <=? 31)).

Definition is_digit (n : Z) : bool := (48 <=? n) && (n <=? 57).

Fixpoint lstrip (l : list Z) : list Z :=
  match l with
  | c :: l' => if is_space c then lstrip l' else l
  | [] => []
  end.

Definition strip (l : list Z) : list Z := rev (lstrip (rev (lstrip l))).

(** [after_digit]: the previous character was a digit. *)
Fixpoint digits (acc : Z) (after_digit : bool) (l : list Z) : option Z :=
  match l with
  | [] => if after_digit then Some acc else None
  | c :: l' =>
      if is_digit c then digits (acc * 10 + (c - 48)) true l'
      else if (c =? 95) && after_digit then
        match l' with
        | d :: _ => if is_digit d then digits acc false l' else None
        | [] => None
        end
      else None
  end.

Definition int_of_str (s : string) : option Z :=
  match strip (Bytes.of_string s) with
  | 43 :: l => digits 0 false l
  | 45 :: l => Z.opp <$> digits 0 false l
  | l => digits 0 false l
  end.

(** [repr(s)] for ASCII [s], cut as [%.200R] cuts it: single quotes,
    or double quotes when [s] has a single quote and no double one; a
    backslash before the quote and the backslash; the escapes of tab, line
    feed and carriage return; two hexadecimal digits for the other control
    characters; at most 200 characters. *)
Definition hex_lower (d : Z) : Z := if d <? 10 then 48 + d else 87 + d.

Definition repr_char (quote c : Z) : list Z :=
  if (c =? quote) || (c =? 92) then [92; c]
  else if c =? 9 then [92; 116]
  else if c =? 10 then [92; 110]
  else if c =? 13 then [92; 114]
  else if (c <? 32) || (c =? 127) then
    [92; 120; hex_lower (c / 16); hex_lower (c mod 16)]
  else [c].

Definition repr (s : string) : string :=
  let l := Bytes.of_string s in
  let quote :=
    if existsb (Z.eqb 39) l && negb (existsb (Z.eqb 34) l) then 34 else 39 in
  Bytes.to_string
    (firstn 200 (quote :: flat_map (repr_char quote) l ++ [quote])%list).

(** [Header(s, "utf-8").encode()] for an ASCII name that fits one line and
    is shortest in the quoted-printable form: letters, digits and [-!*+/]
    stand for themselves, a space becomes an underscore, any other
    character [=XX]. *)
Definition hex_upper (d : Z) : Z := if d <? 10 then 48 + d else 55 + d.

Definition q_safe (c : Z) : bool :=
  is_digit c || ((65 <=? c) && (c <=? 90)) || ((97 <=? c) && (c <=? 122))
  || existsb (Z.eqb c) [45; 33; 42; 43; 47].

Definition q_encode (c : Z) : list Z :=
  if q_safe c then [c]
  else if c =? 32 then [95]
  else [61; hex_upper (c / 16); hex_upper (c mod 16)].

Definition header_encode (s : string) : string :=
  "=?utf-8?q?" ++ Bytes.to_string (flat_map q_encode (Bytes.of_string s)) ++ "?=".

(** [urlparse(u).path] for a URL of the form
    [scheme://host/path?query#fragment] without parameters. *)
Fixpoint until_any (stops : list Z) (l : list Z) : list Z :=
  match l with
  | [] => []
  | c :: l' => if existsb (Z.eqb c) stops then [] else c :: until_any stops l'
  end.

Fixpoint from_char (stop : Z) (l : list Z) : list Z :=
  match l with
  | [] => []
  | c :: l' => if c =? stop then l else from_char stop l'
  end.

Fixpoint after_scheme (l : list Z) : option (list Z) :=
  match l with
  | 58 :: 47 :: 47 :: rest => Some rest
  | _ :: l' => after_scheme l'
  | [] => None
  end.

Definition urlparse_path (u : string) : string :=
  let l := Bytes.of_string u in
  Bytes.to_string
    (until_any [63; 35]
       (match after_scheme l with
        | Some rest => from_char 47 rest
        | None => l
        end)).

(** [unquote(s)] where the escapes decode to well-formed UTF-8. *)
Definition hex_value (c : Z) : option Z :=
  if is_digit c then Some (c - 48)
  else if (97 <=? c) && (c <=? 102) then Some (c - 87)
  else if (65 <=? c) && (c <=? 70) then Some (c - 55)
  else None.

Fixpoint unquote_bytes (l : list Z) : list Z :=
  match l with
  | [] => []
  | c :: l' =>
      match l' with
      | h :: (d :: l'') as l1 =>
          match (if c =? 37 then hex_value h else None), hex_value d with
          | Some x, Some y => (16 * x + y) :: unquote_bytes l''
          | _, _ => c :: unquote_bytes l'
          end
      | _ => c :: unquote_bytes l'
      end
  end.

Definition unquote (s : string) : string :=
  Bytes.to_string (unquote_bytes (Bytes.of_string s)).

(** [base64.b64decode(s)]: characters outside the alphabet are skipped,
    a complete padding ends the data, an incomplete last group is an
    error. *)
Definition b64_value (c : Z) : option Z :=
  if (65 <=? c) && (c <=? 90) then Some (c - 65)
  else if (97 <=? c) && (c <=? 122) then Some (c - 71)
  else if is_digit c then Some (c + 4)
  else if c =? 43 then Some 62
  else if c =? 47 then Some 63
  else None.

Fixpoint b64_loop (quad_pos leftchar pads : Z) (l : list Z) : option (list Z) :=
  match l with
  | [] => if quad_pos =? 0 then Some [] else None
  | c :: l' =>
      if c =? 61 then
        if (2 <=? quad_pos) && (4 <=? quad_pos + (pads + 1)) then Some []
        else b64_loop quad_pos leftchar
                      (if 2 <=? quad_pos then pads + 1 else pads) l'
      else
        match b64_value c with
        | None => b64_loop quad_pos leftchar pads l'
        | Some v =>
            if quad_pos =? 0 then b64_loop 1 v 0 l'
            else if quad_pos =? 1 then
              cons (leftchar * 4 + v / 16) <$> b64_loop 2 (v mod 16) 0 l'
            else if quad_pos =? 2 then
              cons (leftchar * 16 + v / 4) <$> b64_loop 3 (v mod 4) 0 l'
            else
              cons (leftchar * 64 + v) <$> b64_loop 0 0 0 l'
        end
  end.

Definition b64decode (s : string) : outcome string :=
  match b64_loop 0 0 0 (Bytes.of_string s) with
  | Some l => Ret (Bytes.to_string l)
  | None => Raise (Exn BinasciiError "Incorrect padding")
  end.

End Reference.

#[global] Instance reference_runtime : Runtime := {|
  Py.int_of_str := Reference.int_of_str;
  Py.repr := Reference.repr;
  Py.header_encode := Reference.header_encode;
  Py.urlparse_path := Reference.urlparse_path;
  Py.unquote := Reference.unquote;
  Py.b64decode := Reference.b64decode
|}.

(** Concrete clients, responses and environments. *)
Module Scenario.

Definition url92 : string := "https://example.org/logs/build-92.txt".

Definition key92 : string :=
  "d874f5b7deb4d4f5fe0d42e31bd293f94288f10704d9a3b2346c2564488e2600".

Definition client : Client :=
  {| bucket_name := "kcidb-cache"; max_store_size := 5 * 1024 * 1024 |}.

Definition fresh : World :=
  {| objects := ∅; journal := []; _CACHE_CLIENT := None; store_calls := [] |}.

Definition response (status : Z) (hdrs : gmap string string) (body : string)
    : Response :=
  {| status_code := status; headers := hdrs; response_url := url92;
     response_content := body |}.

(** A HEAD answer with type and length, one without a type, one with a
    length that is no number, one that is too large. *)
Definition head_ok : Response :=
  response 200 (<["content-type" := "text/plain"]>
                  {["content-length" := "5"]}) "".

Definition head_untyped : Response :=
  response 200 {["content-length" := "5"]} "".

Definition head_bad_length : Response :=
  response 200 (<["content-type" := "text/plain"]>
                  {["content-length" := "five"]}) "".

Definition head_large : Response :=
  response 200 (<["content-type" := "text/plain"]>
                  {["content-length" := "6000000"]}) "".

Definition get_ok : Response :=
  response 200 {["content-type" := "text/plain"]} "hello".

Definition identity : Credentials :=
  {| token := None; expired := false;
     service_account_email := "cache@example.iam.gserviceaccount.com" |}.

Definition refreshed (c : Credentials) : Credentials :=
  {| token := Some "ya29.fresh"; expired := false;
     service_account_email := service_account_email c |}.

Definition stale : Credentials :=
  {| token := Some "ya29.stale"; expired := true;
     service_account_email := "cache@example.iam.gserviceaccount.com" |}.

Definition signed_address (r : SignRequest) : string :=
  "https://storage.googleapis.com/" ++ sign_bucket r ++ "/" ++ sign_object r
  ++ "?X-Goog-Signature=0a1b".

(** An origin that answers HEAD with [h] and GET with [g], a backend
    that fails as [fault] says, and credentials [c]. *)
Definition env (h g : outcome Response) (fault : nat -> option exn)
    (c : Credentials) : Env :=
  {| CACHE_BUCKET_NAME := "kcidb-cache";
     origin := fun _ m _ => if String.eqb m "HEAD" then h else g;
     backend_fault := fault;
     auth_default := fun _ => Ret c;
     auth_refresh := fun _ c => Ret (refreshed c);
     signer := fun _ r => Ret (signed_address r) |}.

Definition healthy : nat -> option exn := fun _ => None.

Definition unreachable : exn := Exn GoogleError "503 Service Unavailable".

Definition down_at (t : nat) : nat -> option exn :=
  fun n => if Nat.eqb n t then Some unreachable else None.

Definition serving : Env := env (Ret head_ok) (Ret get_ok) healthy identity.

Definition not_found : Response := response 404 ∅ "".

Definition timed_out : exn := Exn RequestException "Read timed out.".

(** A world in which [url92] is cached. *)
Definition cached : World :=
  {| objects := {[ ("kcidb-cache", key92) :=
                     {| blob_contents := "hello";
                        blob_content_type := "text/plain";
                        blob_content_disposition := "attachment" |} ]};
     journal := []; _CACHE_CLIENT := Some client; store_calls := [] |}.

(** A URL that the sampling policy leaves out. *)
Definition url1 : string := "https://example.org/logs/build-1.txt".

Definition LF : string := String (Bytes.chr 10) EmptyString.





Definition get_request : Main.Request :=
  {| Main.method := "GET";
     Main.query_string := "https%3A//example.org/logs/build-92.txt" |}.

Definition raw_request : Main.Request :=
  {| Main.method := "GET";
     Main.query_string := String (Bytes.chr 255) EmptyString |}.

(** An origin whose GET times out after a good probe. *)
Definition get_times_out : Env :=
  env (Ret head_ok) (Raise timed_out) healthy identity.


Definition signed92 : string :=
  "https://storage.googleapis.com/kcidb-cache/" ++ key92
  ++ "?X-Goog-Signature=0a1b".

End Scenario.

(** Concrete data for the further properties. *)
Module Cases.
Import Scenario.

Definition hello : Blob :=
  {| blob_contents := "hello"; blob_content_type := "text/plain";
     blob_content_disposition := "attachment" |}.

(** A world with two objects in the cache bucket and one elsewhere. *)
Definition stocked : World :=
  {| objects := <[("kcidb-cache", key92) := hello]>
                  (<[("kcidb-cache", "0000") := hello]>
                     {[ ("archive", "readme") := hello ]});
     journal := []; _CACHE_CLIENT := Some client; store_calls := [] |}.

(** An origin that answers both requests with 404. *)
Definition missing : Env :=
  env (Ret not_found) (Ret not_found) healthy identity.

(** The event of a batch of [url1] alone. *)
Definition url1_event : gmap string string :=
  {[ "data" := "aHR0cHM6Ly9leGFtcGxlLm9yZy9sb2dzL2J1aWxkLTEudHh0Cg==" ]}.

(** I/O data with one build. *)
Definition one_build : Fields.value :=
  Fields.VDict
    [ ("version", Fields.VDict [("major", Fields.VInt 4)]);
      ("builds",
       Fields.VList
         [ Fields.VDict
             [ ("id", Fields.VStr "origin:1");
               ("log_url", Fields.VStr url92);
               ("input_files",
                Fields.VList
                  [ Fields.VDict [("name", Fields.VStr "config");
                                  ("url", Fields.VStr url1)] ]) ] ]) ].

End Cases.


(* ===================================================================== *)
(** ** Vocabulary of the properties *)
(* ===================================================================== *)

(** The sampling decision of [store]: the object name ends in ["00"]. *)
Definition eligible (url : string) : bool :=
  Bytes.endswith (SHA256.hexdigest url) "00".

(** What a computation did: the journal entries added from [w] to [w']. *)
Definition performed (w w' : World) : list event := drop (now w) (journal w').

Definition is_get (e : event) : bool :=
  match e with EvRequest m _ _ _ => String.eqb m "GET" | _ => false end.

Definition is_request (e : event) : bool :=
  match e with EvRequest _ _ _ _ => true | _ => false end.

Definition is_upload (e : event) : bool :=
  match e with EvUpload _ _ _ _ => true | _ => false end.

(** An object write that the backend carried out. *)
Definition is_write (e : event) : bool :=
  match e with EvUpload _ _ _ stored => stored | _ => false end.

Definition is_refresh (e : event) : bool :=
  match e with EvRefresh => true | _ => false end.

Definition is_warning (e : event) : bool :=
  match e with EvLog WARNING _ _ => true | _ => false end.

Definition writes (evs : list event) : nat := length (List.filter is_write evs).


(** The worlds on the way of an eligible, absent URL through [store]: after
    the existence check and the probe, and after the GET. *)
Definition probed (self : Client) (url : string) (w : World) : World :=
  record (EvRequest "HEAD" url 10 true)
    (record (EvExists (bucket_name self) (SHA256.hexdigest url))
       (note_store_call url w)).

Definition fetched (self : Client) (url : string) (w : World) : World :=
  record (EvRequest "GET" url 10 true) (probed self url w).

(** [store] returned after the warning [fmt % args], logged in [w']. *)
Definition warned (fmt : string) (args : list logarg) (w' : World)
    : outcome unit * World :=
  (Ret tt, record (EvLog WARNING fmt args) w').

(** The object [store] makes of the probe's Content-Type [ct] and the GET
    answer [g], and the world after it has been uploaded. *)
Definition blob_of `{Runtime} (ct : string) (g : Response) : Blob :=
  {| blob_contents := response_content g;
     blob_content_type := ct;
     blob_content_disposition := Cache._extract_content_disposition g |}.

Definition cached_as (self : Client) (url : string) (b : Blob) (w : World)
    : outcome unit * World :=
  (Ret tt,
   record (EvLog INFO "URL %r successfully cached." [ArgStr url])
     (record (EvUpload (bucket_name self) (SHA256.hexdigest url) b true)
        (put_object (bucket_name self, SHA256.hexdigest url) b
           (fetched self url w)))).

(** The signing request [map] makes on behalf of the credentials [c]. *)
Definition signing_request (self : Client) (url : string) (ttl : Z)
    (c : Credentials) : SignRequest :=
  {| sign_bucket := bucket_name self; sign_object := SHA256.hexdigest url;
     sign_version := "v4"; sign_method := "GET"; sign_expiration := ttl;
     sign_email := service_account_email c;
     sign_access_token := token c |}.

(** The answer of the signing service as the result of [map]. *)
Definition signed (o : outcome string) : outcome (option string) :=
  match o with Ret a => Ret (Some a) | Raise e => Raise e end.

(** The gateway's call of the resolver. *)
Definition resolve `{Runtime} (url : string) : M (option string) :=
  cache_client ← Main.get_cache_client;
  Cache.map cache_client (Str url) Main.CACHE_REDIRECT_TTL.


(** The four answers of the redirect gateway. *)
Definition method_not_allowed : string * Z * gmap string string :=
  ("Method not allowed.", 405, {[ "Allow" := "GET" ]}).

Definition bad_request : string * Z * gmap string string :=
  ("Provide a valid URL to query from the caching system.", 400, ∅).

Definition found (location : string) : string * Z * gmap string string :=
  ("", 302, {[ "Location" := location ]}).

(* ===================================================================== *)
(** ** Vocabulary of the further properties *)
(* ===================================================================== *)

(** A lower-case hexadecimal digit. *)
Definition is_hex_char (c : ascii) : bool :=
  let n := Bytes.ord c in
  ((48 <=? n) && (n <=? 57)) || ((97 <=? n) && (n <=? 102)).

Definition all_hex (s : string) : bool :=
  forallb is_hex_char (list_ascii_of_string s).


(** [e] is neither a request to an origin nor an upload. *)
Definition quiet (e : event) : Prop :=
  is_request e = false /\ is_upload e = false.

(** From [w] to [w']: the same bucket contents and calls of [store], and
    nothing performed but quiet operations. *)
Definition undisturbed (w w' : World) : Prop :=
  objects w' = objects w /\ store_calls w' = store_calls w
  /\ exists evs, journal w' = (journal w ++ evs)%list /\ Forall quiet evs.

(** The client [get_cache_client] creates. *)
Definition configured_client (E : Env) : Client :=
  {| bucket_name := CACHE_BUCKET_NAME E; max_store_size := 5242880 |}.


(** Every list of a specification has one element. *)
Fixpoint single_lists (spec : Fields.value) : bool :=
  match spec with
  | Fields.VList [s] => single_lists s
  | Fields.VList _ => false
  | Fields.VDict items =>
      (fix all (l : list (string * Fields.value)) : bool :=
         match l with
         | [] => true
         | (_, s) :: l' => single_lists s && all l'
         end) items
  | _ => true
  end.

(** [v] occurs in [data]: it is [data], an element of a list in it, or a
    Fields.value of a dictionary in it. *)
Inductive occurs_in (v : Fields.value) : Fields.value -> Prop :=
| occurs_here : occurs_in v v
| occurs_elem (x : Fields.value) (elems : list Fields.value) :
    In x elems -> occurs_in v x -> occurs_in v (Fields.VList elems)
| occurs_item (k : string) (x : Fields.value) (items : list (string * Fields.value)) :
    In (k, x) items -> occurs_in v x -> occurs_in v (Fields.VDict items).


(* ===================================================================== *)
(** ** Proof support: strings, digests, worlds *)
(* ===================================================================== *)

Lemma substring_whole (t : string) :
  String.substring 0 (String.length t) t = t.
Proof. induction t as [|c t IH]; simpl; [reflexivity | now rewrite IH]. Qed.

Lemma substring_append_tail (p t : string) :
  String.substring (String.length p) (String.length t) (p ++ t) = t.
Proof.
  induction p as [|c p IH]; simpl.
  - apply substring_whole.
  - exact IH.
Qed.

Lemma length_append (p t : string) :
  String.length (p ++ t) = (String.length p + String.length t)%nat.
Proof. induction p as [|c p IH]; simpl; [reflexivity | now rewrite IH]. Qed.

Lemma endswith_append (p t suffix : string) :
  String.length t = String.length suffix ->
  Bytes.endswith (p ++ t) suffix = String.eqb t suffix.
Proof.
  intros Hlen. unfold Bytes.endswith.
  rewrite length_append, <- Hlen.
  replace (String.length p + String.length t - String.length t)%nat
    with (String.length p) by lia.
  rewrite substring_append_tail.
  replace (String.length t <=? String.length p + String.length t)%nat with true.
  - reflexivity.
  - symmetry. apply Nat.leb_le. lia.
Qed.

Lemma hex_snoc (l : list Z) (b : Z) :
  Bytes.hex (l ++ [b])%list = Bytes.hex l ++ Bytes.hex2 b.
Proof.
  unfold Bytes.hex.
  induction l as [|a l IH].
  - reflexivity.
  - change (String.concat "" (List.map Bytes.hex2 ((a :: l) ++ [b])))
      with (String.concat "" (Bytes.hex2 a :: List.map Bytes.hex2 (l ++ [b]))).
    destruct l as [|a' l'].
    + reflexivity.
    + simpl in *. rewrite IH. reflexivity.

Qed.

Lemma digest_snoc (msg : list Z) :
  exists front, SHA256.digest msg = (front ++ [List.last (SHA256.digest msg) 0])%list.
Proof.
  unfold SHA256.digest.
  set (h := fold_left SHA256.compress _ SHA256.H0).
  eexists (removelast _). 
  apply app_removelast_last. destruct h; discriminate.
Qed.

Lemma hex2_zero (b : Z) : 0 <= b < 256 -> (Bytes.hex2 b = "00" <-> b = 0).
Proof.
  intros Hb. split.
  - intros Hhex.
    assert (H : forallb (fun b => implb (String.eqb (Bytes.hex2 b) "00") (b =? 0))
                        (List.map Z.of_nat (seq 0 256)) = true) by (vm_compute; reflexivity).
    rewrite forallb_forall in H.
    assert (Hin : In b (List.map Z.of_nat (seq 0 256))).
    { apply in_map_iff. exists (Z.to_nat b). split; [lia|]. apply in_seq. lia. }
    apply H in Hin. rewrite Hhex in Hin.
    apply Z.eqb_eq. exact Hin.
  - intros ->. reflexivity.
Qed.

Lemma digest_last_byte (msg : list Z) : 0 <= List.last (SHA256.digest msg) 0 < 256.
Proof.
  unfold SHA256.digest.
  set (h := fold_left SHA256.compress _ SHA256.H0).
  change (List.last (flat_map (SHA256.be_bytes 4) (SHA256.words h)) 0)
    with (Z.shiftr (SHA256.rh h) (8 * Z.of_nat 0) mod 256).
  apply Z.mod_pos_bound. lia.
Qed.

Lemma eligible_last_byte (url : string) :
  eligible url = true <->
  Bytes.hex2 (List.last (SHA256.digest (Bytes.of_string url)) 0) = "00".
Proof.
  unfold eligible, SHA256.hexdigest.
  destruct (digest_snoc (Bytes.of_string url)) as [front Hd].
  rewrite Hd at 1. rewrite hex_snoc, endswith_append by reflexivity.
  apply String.eqb_eq.
Qed.


Lemma now_record e w : now (record e w) = S (now w).
Proof. unfold now, record. simpl. rewrite length_app. simpl. lia. Qed.

Lemma now_note_store_call u w : now (note_store_call u w) = now w.
Proof. reflexivity. Qed.

Lemma now_put_object k b w : now (put_object k b w) = now w.
Proof. reflexivity. Qed.

Lemma now_set_cache_client c w : now (set_cache_client c w) = now w.
Proof. reflexivity. Qed.

Lemma performed_app w w' evs :
  journal w' = (journal w ++ evs)%list -> performed w w' = evs.
Proof.
  intros Hj. unfold performed, now. rewrite Hj. apply drop_app_length.
Qed.

Lemma performed_refl w w' : journal w' = journal w -> performed w w' = [].
Proof.
  intros Hj. apply performed_app. rewrite Hj. symmetry. apply app_nil_r.
Qed.

(** Rewrites the clock of a world built step by step to [S (.. (now w))]. *)
Ltac clock :=
  repeat first [ rewrite now_record | rewrite now_note_store_call
               | rewrite now_put_object | rewrite now_set_cache_client ].

(** Normalises [journal] of a world built by [record] and the like to
    [journal w ++ [e1; ...; en]]. *)
Ltac journal_norm :=
  cbn [journal objects store_calls _CACHE_CLIENT record note_store_call
       put_object set_cache_client];
  repeat rewrite <- app_assoc; cbn [app].

Ltac unfold_store :=
  unfold run, Cache.store, Cache.store_attempt, Cache._format_object_name,
    try_except, headers_getitem, int, requests_head, requests_get,
    requests_request, blob_exists, blob_upload, enter_store, log, raise,
    assert_, lift, mbind, M_bind, mret, M_ret;
  cbv beta iota.

Ltac split_innermost :=
  match goal with
  | |- context [match ?x with _ => _ end] =>
      lazymatch x with
      | context [match _ with _ => _ end] => fail
      | _ => destruct x eqn:?
      end
  end.

Ltac store_cases :=
  unfold_store; clock;
  repeat (first [ progress cbn [is_RequestException exn_cls exn_msg negb]
                | split_innermost ];
          cbv beta iota; clock).

(** Closes the goals about one concrete path: the journal is explicit. *)
Ltac path_done :=
  cbn [fst snd];
  try (erewrite performed_app by (journal_norm; reflexivity));
  journal_norm.

(** The steps of [store] along one path, by the facts that select it. *)
Ltac enter_eligible Hel Hf Habs :=
  unfold_store; rewrite Hel; cbn [negb]; cbv beta iota; clock;
  rewrite Hf; cbn [objects note_store_call]; rewrite Habs;
  cbn [has_value]; cbv beta iota; clock.

Ltac status_is Hs :=
  rewrite Hs; cbn [Z.eqb Pos.eqb]; cbv beta iota.

Ltac status_differs Hs :=
  match type of Hs with
  | status_code ?p <> 200 =>
      destruct (Z.eqb_spec (status_code p) 200) as [?|_]; [contradiction|]
  end.

Ltac within_bound Hle :=
  match type of Hle with
  | ?n <= ?m =>
      replace (n >? m) with false
        by (symmetry; rewrite Z.gtb_ltb; apply Z.ltb_ge; exact Hle)
  end; cbv beta iota.

Ltac accepted_probe Hp Hs Hct Hv Hn Hle :=
  rewrite Hp; status_is Hs; rewrite Hct; cbv beta iota;
  rewrite Hv; cbv beta iota; rewrite Hn; cbv beta iota;
  within_bound Hle; clock.

Ltac unfold_map :=
  unfold run, Cache.map, Cache._format_public_url, Cache._format_object_name,
    assert_, blob_exists, google_auth_default, credentials_refresh,
    generate_signed_url, raise, mbind, M_bind, mret, M_ret;
  cbv beta iota.

(* ===================================================================== *)
(** ** Facts about [Client.store] *)
(* ===================================================================== *)

Section Store.
Context `{Runtime}.

Lemma store_skips (E : Env) (self : Client) (url : string) (w : World) :
  eligible url = false ->
  run (Cache.store self url) E w = (Ret tt, note_store_call url w).
Proof.
  unfold eligible. intros Hne. unfold_store. rewrite Hne. reflexivity.
Qed.

Lemma writes_app (l1 l2 : list event) :
  writes (l1 ++ l2) = (writes l1 + writes l2)%nat.
Proof. unfold writes. rewrite List.filter_app, length_app. reflexivity. Qed.

Lemma performed_trans (w w1 w2 : World) (e1 e2 : list event) :
  journal w1 = (journal w ++ e1)%list -> journal w2 = (journal w1 ++ e2)%list ->
  performed w w2 = (performed w w1 ++ performed w1 w2)%list.
Proof.
  intros H1 H2.
  rewrite (performed_app w w1 e1 H1), (performed_app w1 w2 e2 H2).
  apply performed_app. rewrite H2, H1, app_assoc. reflexivity.
Qed.

(** What [store] leaves untouched, and that the journal only grows. *)
Lemma store_frame (E : Env) (self : Client) (url : string) (w : World) :
  let w' := (run (Cache.store self url) E w).2 in
  store_calls w' = (store_calls w ++ [url])%list
  /\ _CACHE_CLIENT w' = _CACHE_CLIENT w
  /\ exists evs, journal w' = (journal w ++ evs)%list.
Proof.
  store_cases; cbn [snd]; (split; [reflexivity|]); (split; [reflexivity|]);
    eexists; journal_norm; try reflexivity; symmetry; apply app_nil_r.
Qed.

(** One call writes at most once, and only an object that was absent. *)
Lemma store_writes (E : Env) (self : Client) (url : string) (w : World) :
  let w' := (run (Cache.store self url) E w).2 in
  let key := (bucket_name self, SHA256.hexdigest url) in
  (objects w' = objects w /\ writes (performed w w') = 0%nat)
  \/ (exists b, objects w' = <[key := b]> (objects w)
                /\ writes (performed w w') = 1%nat
                /\ objects w !! key = None).
Proof.
  store_cases; path_done.
  all: try (left; split; [reflexivity|];
            first [ reflexivity | rewrite performed_refl by reflexivity; reflexivity ]).
  right; eexists; split; [reflexivity|]; split; [reflexivity|].
  match goal with
  | Hp : has_value _ = false |- _ =>
      cbn [objects note_store_call] in Hp;
      destruct (objects w !! _); [discriminate Hp | reflexivity]
  end.
Qed.

(** An object that exists makes [store] a no-op. *)
Lemma store_present (E : Env) (self : Client) (url : string) (w : World)
    (b : Blob) :
  objects w !! (bucket_name self, SHA256.hexdigest url) = Some b ->
  let w' := (run (Cache.store self url) E w).2 in
  objects w' = objects w
  /\ Forall (fun e => is_request e = false /\ is_upload e = false)
            (performed w w').
Proof.
  intros Hb. store_cases.
  all: try match goal with
       | Hp : has_value _ = false |- _ =>
           cbn [objects note_store_call] in Hp; rewrite Hb in Hp; discriminate Hp
       end.
  all: path_done; (split; [reflexivity|]);
    try (rewrite performed_refl by reflexivity); repeat constructor.
Qed.


(** An error of the backend at the upload that is no [RequestException]
    leaves [store] as it is, the bucket unchanged. *)
Lemma store_upload_fault (E : Env) (self : Client) (url : string) (w : World)
    (p g : Response) (ct v : string) (n : Z) (e : exn) :
  eligible url = true ->
  objects w !! (bucket_name self, SHA256.hexdigest url) = None ->
  backend_fault E (now w) = None ->
  origin E (S (now w)) "HEAD" url = Ret p -> status_code p = 200 ->
  headers_get (headers p) "Content-Type" = Some ct ->
  headers_get (headers p) "Content-Length" = Some v ->
  int_of_str v = Some n -> n <= max_store_size self ->
  origin E (S (S (now w))) "GET" url = Ret g -> status_code g = 200 ->
  backend_fault E (S (S (S (now w)))) = Some e ->
  is_RequestException e = false ->
  (run (Cache.store self url) E w).1 = Raise e
  /\ objects (run (Cache.store self url) E w).2 = objects w.
Proof.
  unfold eligible.
  intros Hel Habs Hexists Hhead Hp Hct Hcl Hint Hle Hget Hg Hup Hcls.
  unfold_store. rewrite Hel. cbn [negb]. cbv beta iota. clock.
  rewrite Hexists. cbn [objects note_store_call]. rewrite Habs.
  cbn [has_value]. cbv beta iota. clock.
  rewrite Hhead, Hp. cbn [Z.eqb Pos.eqb]. cbv beta iota.
  rewrite Hct. cbv beta iota. rewrite Hcl. cbv beta iota. rewrite Hint.
  cbv beta iota.
  replace (n >? max_store_size self) with false
    by (symmetry; rewrite Z.gtb_ltb; apply Z.ltb_ge; exact Hle).
  cbv beta iota. clock. rewrite Hget, Hg. cbn [Z.eqb Pos.eqb]. cbv beta iota.
  clock. rewrite Hup. cbv beta iota. rewrite Hcls. split; reflexivity.
Qed.

(** The path on which [store] caches: an accepted probe, a GET answered
    with 200 and an upload that the backend takes. *)
Lemma store_caches (E : Env) (self : Client) (url : string) (w : World)
    (p g : Response) (ct v : string) (n : Z) :
  eligible url = true ->
  objects w !! (bucket_name self, SHA256.hexdigest url) = None ->
  backend_fault E (now w) = None ->
  origin E (S (now w)) "HEAD" url = Ret p -> status_code p = 200 ->
  headers_get (headers p) "Content-Type" = Some ct ->
  headers_get (headers p) "Content-Length" = Some v ->
  int_of_str v = Some n -> n <= max_store_size self ->
  origin E (S (S (now w))) "GET" url = Ret g -> status_code g = 200 ->
  backend_fault E (S (S (S (now w)))) = None ->
  run (Cache.store self url) E w = cached_as self url (blob_of ct g) w.
Proof.
  unfold eligible.
  intros Hel Habs Hf Hp Hs Hct Hv Hn Hle Hg Hgs Hup.
  enter_eligible Hel Hf Habs. accepted_probe Hp Hs Hct Hv Hn Hle.
  rewrite Hg. status_is Hgs. clock. rewrite Hup. reflexivity.
Qed.

(** An eligible URL gets as far as the existence check. *)
Lemma store_checks (E : Env) (self : Client) (url : string) (w : World) :
  eligible url = true ->
  exists rest,
    performed w (run (Cache.store self url) E w).2
    = EvExists (bucket_name self) (SHA256.hexdigest url) :: rest.
Proof.
  unfold eligible. intros Hel.
  store_cases; path_done; try (eexists; reflexivity).
  all: match goal with
       | Hn : negb _ = true |- _ => rewrite Hel in Hn; discriminate Hn
       end.
Qed.
End Store.

(* ===================================================================== *)
(** ** Properties of [Client.store] *)
(* ===================================================================== *)

Section StoreClaims.
Context `{Runtime}.

(** C1 (amended).  With a storage backend that answers, an origin whose
    failures for the URL are transport errors ([RequestException]), and
    200 probe answers that carry a Content-Type and, when they carry a
    Content-Length, a numeric one, [store] raises nothing.  For an eligible
    URL that is not yet cached, each failed download ends in one warning
    and a normal return, the bucket as it was: a transport error at the
    HEAD, a HEAD status other than 200, a missing Content-Length and one
    above [max_store_size] stop before any GET; a transport error at the
    GET and a GET status other than 200 stop before any upload; only a GET
    answered with 200 is uploaded.  An error of the backend is not
    swallowed: raised by the existence check, or by the upload and no
    [RequestException], it reaches the caller, the bucket unchanged. *)
Theorem store_swallows_download_failures (E : Env) (self : Client)
    (url : string) (w : World) :
  let r := run (Cache.store self url) E w in
  let key := (bucket_name self, SHA256.hexdigest url) in
  let head := origin E (S (now w)) "HEAD" url in
  let get := origin E (S (S (now w))) "GET" url in
  let w1 := probed self url w in
  let w2 := fetched self url w in
  ((forall n, backend_fault E n = None) ->
   (forall n m e, origin E n m url = Raise e -> is_RequestException e = true) ->
   (forall n p, origin E n "HEAD" url = Ret p -> status_code p = 200 ->
      is_Some (headers_get (headers p) "Content-Type")
      /\ forall v, headers_get (headers p) "Content-Length" = Some v ->
                   is_Some (int_of_str v)) ->
   r.1 = Ret tt
   /\ (eligible url = true -> objects w !! key = None ->
       (forall e, head = Raise e ->
          r = warned "Error downloading URL %r: %s"
                [ArgStr url; ArgStr (exn_msg e)] w1)
       /\ (forall p, head = Ret p -> status_code p <> 200 ->
             r = warned "Failed to download URL %r. Status code: %d"
                   [ArgStr url; ArgInt (status_code p)] w1)
       /\ (forall p, head = Ret p -> status_code p = 200 ->
             headers_get (headers p) "Content-Length" = None ->
             r = warned "No Content-Length for %r, not caching."
                   [ArgStr url] w1)
       /\ (forall p ct v n, head = Ret p -> status_code p = 200 ->
             headers_get (headers p) "Content-Type" = Some ct ->
             headers_get (headers p) "Content-Length" = Some v ->
             int_of_str v = Some n ->
             (n > max_store_size self ->
              r = warned
                    "URL %r size (%d) exceeds max_store_size (%d), not caching."
                    [ArgStr url; ArgInt n; ArgInt (max_store_size self)] w1)
             /\ (n <= max_store_size self ->
                 (forall e, get = Raise e ->
                    r = warned "Error downloading URL %r: %s"
                          [ArgStr url; ArgStr (exn_msg e)] w2)
                 /\ (forall g, get = Ret g -> status_code g <> 200 ->
                       r = warned "Failed to download URL %r. Status code: %d"
                             [ArgStr url; ArgInt (status_code g)] w2)
                 /\ (forall g, get = Ret g -> status_code g = 200 ->
                       r = cached_as self url (blob_of ct g) w)))))
  /\ (forall e, eligible url = true -> backend_fault E (now w) = Some e ->
      r.1 = Raise e /\ objects r.2 = objects w)
  /\ (forall p g ct v n e,
        eligible url = true -> objects w !! key = None ->
        backend_fault E (now w) = None ->
        origin E (S (now w)) "HEAD" url = Ret p -> status_code p = 200 ->
        headers_get (headers p) "Content-Type" = Some ct ->
        headers_get (headers p) "Content-Length" = Some v ->
        int_of_str v = Some n -> n <= max_store_size self ->
        origin E (S (S (now w))) "GET" url = Ret g -> status_code g = 200 ->
        backend_fault E (S (S (S (now w)))) = Some e ->
        is_RequestException e = false ->
        r.1 = Raise e /\ objects r.2 = objects w).
Proof.
  cbv zeta. unfold warned, fetched, probed.
  split; [|split; [|intros p g ct v n e; apply store_upload_fault]].
  - intros Hback Horigin Hhead. split.
    + store_cases; cbn [fst]; try reflexivity.
      all: try match goal with
           | Hf : backend_fault _ _ = Some _ |- _ =>
               rewrite Hback in Hf; discriminate
           end.
      all: try match goal with
           | Ho : origin _ _ _ _ = Raise ?e,
             Hc : is_RequestException ?e = false |- _ =>
               apply Horigin in Ho; rewrite Ho in Hc; discriminate
           end.
      all: match goal with
           | Ho : origin _ _ "HEAD" _ = Ret ?r,
             Hs : (status_code ?r =? 200) = true |- _ =>
               apply Z.eqb_eq in Hs;
               destruct (Hhead _ _ Ho Hs) as [[ct Hct] Hcl]
           end.
      * match goal with
        | Hl : headers_get _ "Content-Length" = Some ?v |- _ =>
            destruct (Hcl _ Hl) as [n Hn]; congruence
        end.
      * congruence.
    + intros Hel Habs.
      pose proof (Hback (now w)) as Hf.
      assert (Hel' := Hel). unfold eligible in Hel'.
      split; [|split; [|split]].
      * intros e He. enter_eligible Hel' Hf Habs.
        rewrite He. cbv beta iota. rewrite (Horigin _ _ _ He). reflexivity.
      * intros p Hp Hs. enter_eligible Hel' Hf Habs.
        rewrite Hp. status_differs Hs. reflexivity.
      * intros p Hp Hs Hnone. enter_eligible Hel' Hf Habs.
        destruct (Hhead _ _ Hp Hs) as [[ct Hct] _].
        rewrite Hp. status_is Hs. rewrite Hct. cbv beta iota.
        rewrite Hnone. reflexivity.
      * intros p ct v n Hp Hs Hct Hv Hn.
        split; [|intros Hle; split; [|split]].
        -- intros Hgt. enter_eligible Hel' Hf Habs.
           rewrite Hp. status_is Hs. rewrite Hct. cbv beta iota.
           rewrite Hv. cbv beta iota. rewrite Hn. cbv beta iota.
           replace (n >? max_store_size self) with true
             by (symmetry; apply Z.gtb_lt; lia).
           reflexivity.
        -- intros e He. enter_eligible Hel' Hf Habs.
           accepted_probe Hp Hs Hct Hv Hn Hle.
           rewrite He. cbv beta iota. rewrite (Horigin _ _ _ He). reflexivity.
        -- intros g Hg Hgs. enter_eligible Hel' Hf Habs.
           accepted_probe Hp Hs Hct Hv Hn Hle.
           rewrite Hg. status_differs Hgs. reflexivity.
        -- intros g Hg Hgs.
           apply (store_caches E self url w p g ct v n); auto.
  - unfold eligible. intros e Hel Hfault.
    unfold_store. rewrite Hel. cbn [negb]. cbv beta iota. clock.
    rewrite Hfault. split; reflexivity.
Qed.


(** C2.  The URL is eligible exactly when the last byte of its SHA-256
    digest, printed as two hexadecimal characters, is ["00"]; one byte
    value in 256 prints so.  [store] of a URL that is not eligible returns
    at once: nothing is added to the journal (no request, no backend
    operation) and the bucket is unchanged.  [store] of an eligible URL
    goes on to the existence check, and caches the URL when it is absent,
    the probe is accepted, the GET answers 200 and the backend takes the
    upload. *)
Theorem store_sampling_policy (E : Env) (self : Client) (url : string)
    (w : World) :
  (eligible url = true <->
   Bytes.hex2 (List.last (SHA256.digest (Bytes.of_string url)) 0) = "00")
  /\ (eligible url = true <->
      List.last (SHA256.digest (Bytes.of_string url)) 0 = 0)
  /\ (forall b, 0 <= b < 256 -> (Bytes.hex2 b = "00" <-> b = 0))
  /\ (eligible url = false ->
      run (Cache.store self url) E w = (Ret tt, note_store_call url w)
      /\ performed w (run (Cache.store self url) E w).2 = []
      /\ objects (run (Cache.store self url) E w).2 = objects w)
  /\ (eligible url = true ->
      exists rest,
        performed w (run (Cache.store self url) E w).2
        = EvExists (bucket_name self) (SHA256.hexdigest url) :: rest)
  /\ (forall p g ct v n,
        eligible url = true ->
        objects w !! (bucket_name self, SHA256.hexdigest url) = None ->
        backend_fault E (now w) = None ->
        origin E (S (now w)) "HEAD" url = Ret p -> status_code p = 200 ->
        headers_get (headers p) "Content-Type" = Some ct ->
        headers_get (headers p) "Content-Length" = Some v ->
        int_of_str v = Some n -> n <= max_store_size self ->
        origin E (S (S (now w))) "GET" url = Ret g -> status_code g = 200 ->
        backend_fault E (S (S (S (now w)))) = None ->
        (run (Cache.store self url) E w).1 = Ret tt
        /\ objects (run (Cache.store self url) E w).2
           = <[(bucket_name self, SHA256.hexdigest url) := blob_of ct g]>
               (objects w)).
Proof.
  split; [apply eligible_last_byte|].
  split.
  { rewrite eligible_last_byte. apply hex2_zero, digest_last_byte. }
  split; [apply hex2_zero|].
  split; [|split].
  - intros Hne. rewrite (store_skips E self url w Hne).
    split; [reflexivity|]. split; [|reflexivity].
    apply performed_refl. reflexivity.
  - apply store_checks.
  - intros p g ct v n Hel Habs Hf Hp Hs Hct Hv Hn Hle Hg Hgs Hup.
    rewrite (store_caches E self url w p g ct v n) by assumption.
    split; reflexivity.
Qed.

(** C4.  For an eligible URL with no object under its key whose HEAD probe
    answers 200: when the answer has no Content-Length, or one that exceeds
    [max_store_size], [store] issues no GET, uploads nothing and leaves the
    bucket unchanged. *)
Theorem store_size_bound (E : Env) (self : Client) (url : string) (w : World)
    (probe : Response) :
  eligible url = true ->
  objects w !! (bucket_name self, SHA256.hexdigest url) = None ->
  origin E (S (now w)) "HEAD" url = Ret probe ->
  status_code probe = 200 ->
  (headers_get (headers probe) "Content-Length" = None
   \/ exists v n, headers_get (headers probe) "Content-Length" = Some v
                  /\ int_of_str v = Some n /\ n > max_store_size self) ->
  let w' := (run (Cache.store self url) E w).2 in
  objects w' = objects w
  /\ Forall (fun e => is_get e = false /\ is_upload e = false) (performed w w').
Proof.
  unfold eligible. intros Hel Habs Hhead Hst Hlen.
  unfold_store. rewrite Hel. cbn [negb]. clock.
  destruct (backend_fault E (now w)) as [e|].
  { cbn. split; [reflexivity|]. erewrite performed_app by (journal_norm; reflexivity).
    repeat constructor. }
  cbn [objects note_store_call]. rewrite Habs.
  cbn [has_value].
  clock. rewrite Hhead, Hst. cbn [Z.eqb Pos.eqb].
  destruct (headers_get (headers probe) "Content-Type") as [ct|].
  2:{ cbn. split; [reflexivity|]. erewrite performed_app by (journal_norm; reflexivity).
    repeat constructor. }
  destruct Hlen as [Hnone | (v & n & Hv & Hn & Hgt)].
  - rewrite Hnone. cbn. split; [reflexivity|].
    erewrite performed_app by (journal_norm; reflexivity). repeat constructor.
  - rewrite Hv, Hn.
    replace (n >? max_store_size self) with true by (symmetry; apply Z.gtb_lt; lia).
    cbn. split; [reflexivity|].
    erewrite performed_app by (journal_norm; reflexivity). repeat constructor.
Qed.


(** C5 (amended).  When an object exists under the key, [store] changes
    nothing and sends no request and no upload.  Two calls in succession
    write at most once; when the first call writes, the second sends no
    request and no upload, so that exactly one write is made. *)
Theorem store_twice (E : Env) (self : Client) (url : string) (w : World) :
  let key := (bucket_name self, SHA256.hexdigest url) in
  let w1 := (run (Cache.store self url) E w).2 in
  let w2 := (run (Cache.store self url) E w1).2 in
  let quiet := fun e => is_request e = false /\ is_upload e = false in
  (forall b, objects w !! key = Some b ->
     objects w1 = objects w /\ Forall quiet (performed w w1))
  /\ (writes (performed w w2) <= 1)%nat
  /\ (writes (performed w w1) = 1%nat ->
      Forall quiet (performed w1 w2) /\ objects w2 = objects w1
      /\ writes (performed w w2) = 1%nat).
Proof.
  cbv zeta.
  set (key := (bucket_name self, SHA256.hexdigest url)).
  set (w1 := (run (Cache.store self url) E w).2).
  set (w2 := (run (Cache.store self url) E w1).2).
  pose proof (store_frame E self url w) as (_ & _ & evs1 & Hj1).
  pose proof (store_frame E self url w1) as (_ & _ & evs2 & Hj2).
  pose proof (store_writes E self url w) as Hw1.
  pose proof (store_writes E self url w1) as Hw2.
  pose proof (store_present E self url w) as Hp1.
  pose proof (store_present E self url w1) as Hp2.
  cbv zeta in Hw1, Hw2, Hp1, Hp2.
  fold w1 in Hj1, Hw1, Hp1. fold w2 in Hj2, Hw2, Hp2.
  fold key in Hw1, Hw2, Hp1, Hp2.
  assert (Hsum : writes (performed w w2)
                 = (writes (performed w w1) + writes (performed w1 w2))%nat).
  { rewrite (performed_trans w w1 w2 evs1 evs2 Hj1 Hj2). apply writes_app. }
  clearbody w1 w2.
  assert (Hafter : writes (performed w w1) = 1%nat ->
            Forall (fun e => is_request e = false /\ is_upload e = false)
                   (performed w1 w2)
            /\ objects w2 = objects w1 /\ writes (performed w1 w2) = 0%nat).
  { intros Hone.
    destruct Hw1 as [[_ Hzero] | (b & Hobj & _ & _)]; [lia|].
    assert (Hin : objects w1 !! key = Some b)
      by (rewrite Hobj; apply lookup_insert_eq).
    destruct (Hp2 b Hin) as [Hsame Hquiet].
    split; [exact Hquiet|]. split; [exact Hsame|].
    destruct Hw2 as [[_ Hz] | (b' & _ & _ & Hnone)]; [exact Hz | congruence]. }
  split; [exact Hp1|].
  split.
  - rewrite Hsum.
    destruct Hw1 as [[_ Hz] | (b & _ & Hone & _)].
    + destruct Hw2 as [[_ Hz2] | (b & _ & Hone2 & _)]; lia.
    + destruct (Hafter Hone) as (_ & _ & Hz2). lia.
  - intros Hone. destruct (Hafter Hone) as (Hq & Hsame & Hz2).
    split; [exact Hq|]. split; [exact Hsame|]. lia.
Qed.


End StoreClaims.

(* ===================================================================== *)
(** ** Properties of [Client.map] *)
(* ===================================================================== *)

Section MapClaims.
Context `{Runtime}.

(** C10.  [map] checks its arguments before anything else: with a [url]
    that is no [str], or a [ttl] that is neither [None] nor a [timedelta],
    it raises [AssertionError] and the world is as before (no storage
    access); with arguments of these types the assertions pass and the
    first thing performed is the existence check. *)
Theorem map_assertions (E : Env) (self : Client) (url ttl : obj) (w : World) :
  let r := run (Cache.map self url ttl) E w in
  (isinstance_str url = false -> r = (Raise (Exn AssertionError ""), w))
  /\ (isinstance_str url = true ->
      is_None ttl || isinstance_timedelta ttl = false ->
      r = (Raise (Exn AssertionError ""), w))
  /\ (isinstance_str url = true ->
      is_None ttl || isinstance_timedelta ttl = true ->
      exists rest,
        performed w r.2
        = EvExists (bucket_name self) (SHA256.hexdigest (str_value url)) :: rest).
Proof.
  cbv zeta. split; [|split].
  - intros Hu. unfold_map. rewrite Hu. reflexivity.
  - intros Hu Ht. unfold_map. rewrite Hu. cbv beta iota. rewrite Ht. reflexivity.
  - intros Hu Ht. unfold_map. rewrite Hu. cbv beta iota. rewrite Ht.
    cbv beta iota. clock.
    repeat (split_innermost; cbv beta iota; clock).
    all: cbn [snd]; eexists;
      erewrite performed_app by (journal_norm; reflexivity); reflexivity.
Qed.

(** C7.  Without a [ttl], and with a backend that answers the existence
    check, [map] returns [None] when no object is under the key and
    otherwise the public address, made of the bucket name and the key
    alone; the existence check is all it performs; and any two such calls
    for a cached URL return the same address. *)
Theorem map_without_ttl (E : Env) (self : Client) (url : string) (w : World) :
  backend_fault E (now w) = None ->
  let key := SHA256.hexdigest url in
  let resolved := run (Cache.map self (Str url) None_) in
  resolved E w
  = (Ret (match objects w !! (bucket_name self, key) with
          | Some _ =>
              Some ("https://storage.googleapis.com/" ++ bucket_name self
                    ++ "/" ++ key)
          | None => None
          end),
     record (EvExists (bucket_name self) key) w)
  /\ (forall E' w',
        backend_fault E' (now w') = None ->
        is_Some (objects w !! (bucket_name self, key)) ->
        is_Some (objects w' !! (bucket_name self, key)) ->
        (resolved E' w').1 = (resolved E w).1).
Proof.
  intros Hf. cbv zeta.
  assert (Hrun : forall E0 w0, backend_fault E0 (now w0) = None ->
            run (Cache.map self (Str url) None_) E0 w0
            = (Ret (match objects w0 !! (bucket_name self, SHA256.hexdigest url) with
                    | Some _ =>
                        Some ("https://storage.googleapis.com/"
                              ++ bucket_name self ++ "/" ++ SHA256.hexdigest url)
                    | None => None
                    end),
               record (EvExists (bucket_name self) (SHA256.hexdigest url)) w0)).
  { intros E0 w0 Hf0. unfold_map.
    cbn [isinstance_str is_None orb str_value]. cbv beta iota. rewrite Hf0.
    destruct (objects w0 !! _); reflexivity. }
  split; [apply Hrun; exact Hf|].
  intros E' w' Hf' [b Hb] [b' Hb'].
  rewrite (Hrun E w Hf), (Hrun E' w' Hf'), Hb, Hb'. reflexivity.
Qed.

(** C6 (amended).  With a [ttl], for a cached URL, [map] takes the default
    credentials and refreshes them exactly when their token is [None]
    (credentials that hold a token are used as they are, whether or not it
    has expired); it then asks for a version 4 signature of a GET of the
    object, expiring after [ttl], under the identity and token of these
    credentials, and returns what the signing service answers. *)
Theorem map_with_ttl (E : Env) (self : Client) (url : string) (ttl : Z)
    (w : World) (b : Blob) (c : Credentials) :
  objects w !! (bucket_name self, SHA256.hexdigest url) = Some b ->
  backend_fault E (now w) = None ->
  auth_default E (S (now w)) = Ret c ->
  let r := run (Cache.map self (Str url) (Timedelta ttl)) E w in
  let probe := EvExists (bucket_name self) (SHA256.hexdigest url) in
  (forall t, token c = Some t ->
     let request := signing_request self url ttl c in
     r.1 = signed (signer E (S (S (now w))) request)
     /\ performed w r.2 = [probe; EvAuthDefault; EvSign request])
  /\ (token c = None ->
      forall c', auth_refresh E (S (S (now w))) c = Ret c' ->
      let request := signing_request self url ttl c' in
      r.1 = signed (signer E (S (S (S (now w)))) request)
      /\ performed w r.2 = [probe; EvAuthDefault; EvRefresh; EvSign request]).
Proof.
  intros Hobj Hf Hauth. cbv zeta. split.
  - intros t Ht. unfold_map.
    cbn [isinstance_str isinstance_timedelta is_None orb str_value].
    cbv beta iota. rewrite Hf, Hobj. cbn [has_value]. cbv beta iota. clock.
    rewrite Hauth, Ht. cbn [has_value]. cbv beta iota. clock.
    unfold signing_request, signed. rewrite Ht.
    destruct (signer E _ _); cbn [fst snd]; (split; [reflexivity|]);
      apply performed_app; journal_norm; reflexivity.
  - intros Ht c' Hrefresh. unfold_map.
    cbn [isinstance_str isinstance_timedelta is_None orb str_value].
    cbv beta iota. rewrite Hf, Hobj. cbn [has_value]. cbv beta iota. clock.
    rewrite Hauth, Ht. cbn [has_value]. cbv beta iota. clock.
    rewrite Hrefresh. cbv beta iota. clock.
    unfold signing_request, signed.
    destruct (signer E _ _); cbn [fst snd]; (split; [reflexivity|]);
      apply performed_app; journal_norm; reflexivity.
Qed.

End MapClaims.

(* ===================================================================== *)
(** ** Properties of the entry points of [main.py] *)
(* ===================================================================== *)

Section MainClaims.
Context `{Runtime}.

Lemma for_each_cons {A} (f : A -> M unit) (x : A) (l : list A) E w :
  run (for_each f (x :: l)) E w
  = match run (f x) E w with
    | (Ret _, w') => run (for_each f l) E w'
    | (Raise e, w') => (Raise e, w')
    end.
Proof. reflexivity. Qed.



Lemma get_cache_client_run (E : Env) (w : World) :
  run Main.get_cache_client E w
  = match _CACHE_CLIENT w with
    | Some c => (Ret c, w)
    | None =>
        let c := {| bucket_name := CACHE_BUCKET_NAME E;
                    max_store_size := 5 * 1024 * 1024 |} in
        match backend_fault E (now w) with
        | Some e => (Raise e, record EvStorageClient w)
        | None => (Ret c, set_cache_client c (record EvStorageClient w))
        end
    end.
Proof.
  unfold run, Main.get_cache_client, read_CACHE_CLIENT, read_CACHE_BUCKET_NAME,
    assign_CACHE_CLIENT, Cache.__init__, storage_Client, mbind, M_bind, mret,
    M_ret.
  destruct (_CACHE_CLIENT w); [reflexivity|].
  cbv beta iota zeta. destruct (backend_fault E (now w)); reflexivity.
Qed.



(** C3 (amended).  To a request that is not a GET the gateway answers 405
    with [Allow: GET].  To a GET whose query string is ASCII it answers 400
    when the decoded query string is empty; otherwise it asks the resolver,
    and answers 302 with the resolver's address when that is a non-empty
    address, 302 with the decoded URL when the resolver returns [None], and
    raises what the resolver raises. *)
Theorem redirect_gateway_responses (E : Env) (request : Main.Request)
    (w : World) :
  let r := run (Main.kcidb_cache_redirect request) E w in
  let url := unquote (Main.query_string request) in
  let w0 := record (EvLog DEBUG "URL %r" [ArgStr url]) w in
  (Main.method request <> "GET" -> r = (Ret method_not_allowed, w))
  /\ (Main.method request = "GET" ->
      is_ascii (Main.query_string request) = true ->
      (url = "" -> r = (Ret bad_request, w0))
      /\ (url <> "" ->
          match run (resolve url) E w0 with
          | (Ret (Some address), _) =>
              address <> "" -> r.1 = Ret (found address)
          | (Ret None, _) => r.1 = Ret (found url)
          | (Raise e, _) => r.1 = Raise e
          end)).
Proof.
  cbv zeta. split.
  - intros Hm. unfold run, Main.kcidb_cache_redirect.
    destruct (String.eqb_spec (Main.method request) "GET") as [Heq|_];
      [contradiction | reflexivity].
  - intros Hm Hascii.
    assert (Hrun : run (Main.kcidb_cache_redirect request) E w
              = run (let url_to_fetch := unquote (Main.query_string request) in
                     if negb (nonempty url_to_fetch) then mret bad_request
                     else
                       cache ← resolve url_to_fetch;
                       match cache with
                       | Some address =>
                           if nonempty address then
                             log INFO "Redirecting to the cache at %r"
                                 [ArgStr address] ;;
                             mret (found address)
                           else
                             log INFO "Redirecting to the origin at %r"
                                 [ArgStr url_to_fetch] ;;
                             mret (found url_to_fetch)
                       | None =>
                           log INFO "Redirecting to the origin at %r"
                               [ArgStr url_to_fetch] ;;
                           mret (found url_to_fetch)
                       end)
                  E (record (EvLog DEBUG "URL %r"
                               [ArgStr (unquote (Main.query_string request))]) w)).
    { unfold run, Main.kcidb_cache_redirect, Main.bytes_decode_ascii, resolve,
        log, mbind, M_bind, mret, M_ret.
      rewrite Hm, Hascii. cbn [String.eqb Ascii.eqb Bool.eqb].
      cbv beta iota zeta.
      destruct (negb _); [reflexivity|].
      destruct (Main.get_cache_client E _) as [[c|e] w1]; reflexivity. }
    rewrite Hrun. cbv zeta. unfold nonempty. split.
    + intros ->. reflexivity.
    + intros Hne.
      destruct (String.eqb_spec (unquote (Main.query_string request)) "")
        as [Heq|_]; [contradiction|].
      cbn [negb]. unfold run, mbind, M_bind.
      destruct (resolve _ E _) as [[[address|]|e] w1].
      * intros Hadd. destruct (String.eqb_spec address "") as [Heq|_];
          [contradiction | reflexivity].
      * reflexivity.
      * reflexivity.
Qed.

End MainClaims.

(* ===================================================================== *)
(** ** Concrete runs *)
(* ===================================================================== *)

Example sha256_constants :
  nth 0 SHA256.K 0 = 0x428a2f98 /\ nth 63 SHA256.K 0 = 0xc67178f2
  /\ SHA256.ra SHA256.H0 = 0x6a09e667 /\ SHA256.rh SHA256.H0 = 0x5be0cd19.
Proof. vm_compute. repeat split. Qed.

Example sha256_abc :
  SHA256.hexdigest "abc"
  = "ba7816bf8f01cfea414140de5dae2223b00361a396177a9cb410ff61f20015ad".
Proof. vm_compute. reflexivity. Qed.

Example sha256_empty :
  SHA256.hexdigest ""
  = "e3b0c44298fc1c149afbf4c8996fb92427ae41e4649b934ca495991b7852b855".
Proof. vm_compute. reflexivity. Qed.

Example sha256_two_blocks :
  SHA256.hexdigest
    "aaaaaaaaaaaaaaaaaaaaaaaaaaaaaaaaaaaaaaaaaaaaaaaaaaaaaaaaaaaaaaaa"
  = "ffe054fe7ae0cb6dc65c3af9b61d5209f439851db43d0ba5997337df154668eb".
Proof. vm_compute. reflexivity. Qed.

Example sha256_url92 : Cache._format_object_name Scenario.url92 = Scenario.key92.
Proof. vm_compute. reflexivity. Qed.

Section Runs.
Import Scenario.

(** C1, instance: a GET that times out after an accepted probe is logged
    and swallowed, nothing uploaded; a backend that is unreachable at the
    existence check, or at the upload, is not swallowed. *)
Lemma store_swallows_download_failures_witness :
  run (Cache.store client url92) get_times_out fresh
  = warned "Error downloading URL %r: %s"
      [ArgStr url92; ArgStr "Read timed out."] (fetched client url92 fresh)
  /\ (run (Cache.store client url92)
          (env (Ret head_ok) (Ret get_ok) (down_at 0) identity) fresh).1
     = Raise unreachable
  /\ (run (Cache.store client url92)
          (env (Ret head_ok) (Ret get_ok) (down_at 3) identity) fresh).1
     = Raise unreachable.
Proof.
  split; [|split].
  - assert (Hback : forall n, backend_fault get_times_out n = None)
      by (intros n; reflexivity).
    assert (Horigin : forall n m e, origin get_times_out n m url92 = Raise e ->
                                    is_RequestException e = true).
    { intros n m e. simpl. destruct (String.eqb m "HEAD"); intros Heq.
      - discriminate Heq.
      - injection Heq as <-. reflexivity. }
    assert (Hhead : forall n p,
              origin get_times_out n "HEAD" url92 = Ret p ->
              status_code p = 200 ->
              is_Some (headers_get (headers p) "Content-Type")
              /\ forall v, headers_get (headers p) "Content-Length" = Some v ->
                           is_Some (int_of_str v)).
    { intros n p Hp _. vm_compute in Hp. injection Hp as <-. split.
      - exists "text/plain". vm_compute. reflexivity.
      - intros v Hv. vm_compute in Hv. injection Hv as <-.
        exists 5. vm_compute. reflexivity. }
    assert (Hel : eligible url92 = true) by (vm_compute; reflexivity).
    assert (Habs : objects fresh !! (bucket_name client, SHA256.hexdigest url92)
                   = None) by (vm_compute; reflexivity).
    assert (Hct : headers_get (headers head_ok) "Content-Type"
                  = Some "text/plain") by (vm_compute; reflexivity).
    assert (Hcl : headers_get (headers head_ok) "Content-Length" = Some "5")
      by (vm_compute; reflexivity).
    assert (Hint : int_of_str "5" = Some 5) by (vm_compute; reflexivity).
    assert (Hle : 5 <= max_store_size client) by (vm_compute; discriminate).
    destruct (proj2 (proj1 (store_swallows_download_failures
                              get_times_out client url92 fresh)
                       Hback Horigin Hhead) Hel Habs) as (_ & _ & _ & Hlen).
    destruct (Hlen head_ok "text/plain" "5" 5 eq_refl eq_refl Hct Hcl Hint)
      as [_ Hfits].
    destruct (Hfits Hle) as (Herr & _ & _).
    exact (Herr timed_out eq_refl).
  - apply (proj1 (proj2 (store_swallows_download_failures
                           (env (Ret head_ok) (Ret get_ok) (down_at 0) identity)
                           client url92 fresh)) unreachable).
    + vm_compute. reflexivity.
    + reflexivity.
  - apply (proj2 (proj2 (store_swallows_download_failures
                           (env (Ret head_ok) (Ret get_ok) (down_at 3) identity)
                           client url92 fresh))
             head_ok get_ok "text/plain" "5" 5 unreachable);
      vm_compute; first [reflexivity | discriminate].
Defined.

(** C1, counterexample: [store] raises [KeyError] on a 200 probe without
    Content-Type, [ValueError] on a Content-Length that is no number, and
    the backend's error when the existence check or the upload fails. *)
Lemma store_raises :
  (run (Cache.store client url92)
       (env (Ret head_untyped) (Ret get_ok) healthy identity) fresh).1
  = Raise (Exn KeyError "content-type")
  /\ (run (Cache.store client url92)
          (env (Ret head_bad_length) (Ret get_ok) healthy identity) fresh).1
     = Raise (Exn ValueError "invalid literal for int() with base 10: 'five'")
  /\ (run (Cache.store client url92)
          (env (Ret head_ok) (Ret get_ok) (down_at 0) identity) fresh).1
     = Raise unreachable
  /\ (run (Cache.store client url92)
          (env (Ret head_ok) (Ret get_ok) (down_at 3) identity) fresh).1
     = Raise unreachable.
Proof. vm_compute. repeat split. Qed.

(** C2, instance: [url1] is not eligible and [store] returns at once;
    [url92] is eligible, [store] checks for it and caches it. *)
Lemma store_sampling_policy_witness :
  run (Cache.store client url1) serving fresh
  = (Ret tt, note_store_call url1 fresh)
  /\ (exists rest,
        performed fresh (run (Cache.store client url92) serving fresh).2
        = EvExists (bucket_name client) (SHA256.hexdigest url92) :: rest)
  /\ ((run (Cache.store client url92) serving fresh).1 = Ret tt
      /\ objects (run (Cache.store client url92) serving fresh).2
         = <[(bucket_name client, SHA256.hexdigest url92)
               := blob_of "text/plain" get_ok]> (objects fresh)).
Proof.
  split; [|split].
  - apply (proj1 (proj2 (proj2 (proj2
             (store_sampling_policy serving client url1 fresh))))).
    vm_compute. reflexivity.
  - apply (proj1 (proj2 (proj2 (proj2 (proj2
             (store_sampling_policy serving client url92 fresh)))))).
    vm_compute. reflexivity.
  - apply (proj2 (proj2 (proj2 (proj2 (proj2
             (store_sampling_policy serving client url92 fresh)))))
             head_ok get_ok "text/plain" "5" 5);
      vm_compute; first [reflexivity | discriminate].
Defined.

(** C4, instance: a probe announcing 6000000 bytes, above the 5 MiB bound. *)
Lemma store_size_bound_witness :
  let E := env (Ret head_large) (Ret get_ok) healthy identity in
  let w' := (run (Cache.store client url92) E fresh).2 in
  objects w' = objects fresh
  /\ Forall (fun e => is_get e = false /\ is_upload e = false)
            (performed fresh w').
Proof.
  apply (store_size_bound (env (Ret head_large) (Ret get_ok) healthy identity)
           client url92 fresh head_large).
  - vm_compute. reflexivity.
  - vm_compute. reflexivity.
  - reflexivity.
  - reflexivity.
  - right. exists "6000000", 6000000. repeat split; vm_compute; reflexivity.
Defined.

(** C5, instance: the first call stores [url92], the second does nothing. *)
Lemma store_twice_witness :
  let w1 := (run (Cache.store client url92) serving fresh).2 in
  let w2 := (run (Cache.store client url92) serving w1).2 in
  Forall (fun e => is_request e = false /\ is_upload e = false) (performed w1 w2)
  /\ objects w2 = objects w1
  /\ writes (performed fresh w2) = 1%nat.
Proof.
  apply (proj2 (proj2 (store_twice serving client url92 fresh))).
  vm_compute. reflexivity.
Defined.

(** C5, counterexample: two calls for a URL that is not eligible, or for an
    eligible URL whose origin answers 404, write nothing at all. *)
Lemma store_twice_writes_nothing :
  (let w1 := (run (Cache.store client url1) serving fresh).2 in
   let w2 := (run (Cache.store client url1) serving w1).2 in
   writes (performed fresh w2) = 0%nat)
  /\ (let E := env (Ret not_found) (Ret get_ok) healthy identity in
      let w1 := (run (Cache.store client url92) E fresh).2 in
      let w2 := (run (Cache.store client url92) E w1).2 in
      writes (performed fresh w2) = 0%nat).
Proof. vm_compute. split; reflexivity. Qed.



(** C10, instance: an integer as [url], a string as [ttl], and a call
    whose arguments pass. *)
Lemma map_assertions_witness :
  run (Cache.map client (Int 3) None_) serving cached
  = (Raise (Exn AssertionError ""), cached)
  /\ run (Cache.map client (Str url92) (Str "10s")) serving cached
     = (Raise (Exn AssertionError ""), cached)
  /\ exists rest,
       performed cached
         (run (Cache.map client (Str url92) Main.CACHE_REDIRECT_TTL)
              serving cached).2
       = EvExists "kcidb-cache" (SHA256.hexdigest url92) :: rest.
Proof.
  split; [|split].
  - apply (proj1 (map_assertions serving client (Int 3) None_ cached)).
    reflexivity.
  - apply (proj1 (proj2 (map_assertions serving client (Str url92) (Str "10s")
                           cached))); reflexivity.
  - apply (proj2 (proj2 (map_assertions serving client (Str url92)
                           Main.CACHE_REDIRECT_TTL cached))); reflexivity.
Defined.

(** C7, instance: the public address of the cached [url92]. *)
Lemma map_without_ttl_witness :
  run (Cache.map client (Str url92) None_) serving cached
  = (Ret (match objects cached !! ("kcidb-cache", SHA256.hexdigest url92) with
          | Some _ =>
              Some ("https://storage.googleapis.com/" ++ "kcidb-cache"
                    ++ "/" ++ SHA256.hexdigest url92)
          | None => None
          end),
     record (EvExists "kcidb-cache" (SHA256.hexdigest url92)) cached).
Proof.
  apply (proj1 (map_without_ttl serving client url92 cached eq_refl)).
Defined.

Example map_without_ttl_values :
  (run (Cache.map client (Str url92) None_) serving cached).1
  = Ret (Some ("https://storage.googleapis.com/kcidb-cache/" ++ key92))
  /\ (run (Cache.map client (Str url92) None_) serving fresh).1 = Ret None.
Proof. vm_compute. split; reflexivity. Qed.

(** C6, instance: credentials without a token are refreshed, then used. *)
Lemma map_with_ttl_witness :
  let r := run (Cache.map client (Str url92) (Timedelta 10000000))
               serving cached in
  let request := signing_request client url92 10000000 (refreshed identity) in
  r.1 = signed (signer serving 3 request)
  /\ performed cached r.2
     = [EvExists "kcidb-cache" (SHA256.hexdigest url92); EvAuthDefault;
        EvRefresh; EvSign request].
Proof.
  refine (proj2 (map_with_ttl serving client url92 10000000 cached _ identity
                   _ eq_refl eq_refl) eq_refl (refreshed identity) eq_refl).
  vm_compute. reflexivity.
Defined.

(** C6, counterexample: credentials whose token is present and expired
    are not refreshed. *)
Lemma map_keeps_expired_token :
  let E := env (Ret head_ok) (Ret get_ok) healthy stale in
  let r := run (Cache.map client (Str url92) (Timedelta 10000000)) E cached in
  token stale <> None /\ expired stale = true
  /\ existsb is_refresh (journal r.2) = false
  /\ r.1 = Ret (Some signed92).
Proof. vm_compute. repeat split. discriminate. Qed.



(** C3, instance: a cached URL, an uncached one, a POST and an empty
    query. *)
Lemma redirect_gateway_responses_witness :
  (run (Main.kcidb_cache_redirect get_request) serving cached).1
  = Ret (found signed92)
  /\ (run (Main.kcidb_cache_redirect get_request) serving fresh).1
     = Ret (found url92)
  /\ run (Main.kcidb_cache_redirect
            {| Main.method := "POST"; Main.query_string := "" |}) serving fresh
     = (Ret method_not_allowed, fresh)
  /\ (run (Main.kcidb_cache_redirect
             {| Main.method := "GET"; Main.query_string := "" |}) serving fresh).1
     = Ret bad_request.
Proof.
  split; [|split; [|split]].
  - pose proof (proj2 (proj2 (redirect_gateway_responses serving get_request cached)
                         eq_refl eq_refl)) as Hfound.
    assert (Hne : unquote (Main.query_string get_request) <> "")
      by (vm_compute; discriminate).
    specialize (Hfound Hne). vm_compute in Hfound. vm_compute.
    apply Hfound. discriminate.
  - pose proof (proj2 (proj2 (redirect_gateway_responses serving get_request fresh)
                         eq_refl eq_refl)) as Hfound.
    assert (Hne : unquote (Main.query_string get_request) <> "")
      by (vm_compute; discriminate).
    specialize (Hfound Hne). vm_compute in Hfound. vm_compute.
    exact Hfound.
  - apply (proj1 (redirect_gateway_responses serving
                    {| Main.method := "POST"; Main.query_string := "" |} fresh)).
    discriminate.
  - destruct (proj2 (redirect_gateway_responses serving
                       {| Main.method := "GET"; Main.query_string := "" |} fresh)
                eq_refl eq_refl) as [Hbad _].
    rewrite Hbad; [reflexivity | vm_compute; reflexivity].
Defined.

(** C3, counterexample: a GET whose query string has a byte outside ASCII,
    and a GET during which the backend is unreachable, get no response:
    the function raises. *)
Lemma redirect_gateway_raises :
  (run (Main.kcidb_cache_redirect raw_request) serving cached).1
  = Raise (Exn UnicodeDecodeError "ascii")
  /\ (run (Main.kcidb_cache_redirect get_request)
          (env (Ret head_ok) (Ret get_ok) (down_at 1) identity) cached).1
     = Raise unreachable.
Proof. vm_compute. split; reflexivity. Qed.

End Runs.

(* ===================================================================== *)
(** ** Further properties: object names and public addresses *)
(* ===================================================================== *)

Lemma hex_cons (b : Z) (l : list Z) :
  Bytes.hex (b :: l) = Bytes.hex2 b ++ Bytes.hex l.
Proof.
  unfold Bytes.hex. destruct l as [|b' l']; reflexivity.
Qed.

Lemma hex2_digits (b : Z) :
  0 <= b < 256 -> all_hex (Bytes.hex2 b) = true.
Proof.
  intros Hb.
  assert (Hall : forallb (fun b => all_hex (Bytes.hex2 b))
                         (List.map Z.of_nat (seq 0 256)) = true)
    by (vm_compute; reflexivity).
  rewrite forallb_forall in Hall. apply Hall.
  apply in_map_iff. exists (Z.to_nat b). split; [lia|]. apply in_seq. lia.
Qed.

Lemma list_ascii_of_append (s t : string) :
  list_ascii_of_string (s ++ t)
  = (list_ascii_of_string s ++ list_ascii_of_string t)%list.
Proof. induction s as [|c s IH]; [reflexivity|]. simpl. now rewrite IH. Qed.

Lemma all_hex_append (s t : string) :
  all_hex (s ++ t) = all_hex s && all_hex t.
Proof. unfold all_hex. rewrite list_ascii_of_append. apply forallb_app. Qed.

Lemma hex_format (l : list Z) :
  Forall (fun b => 0 <= b < 256) l ->
  String.length (Bytes.hex l) = (2 * length l)%nat
  /\ all_hex (Bytes.hex l) = true.
Proof.
  induction 1 as [|b l Hb _ [IHlen IHhex]]; [split; reflexivity|].
  rewrite hex_cons, length_append, all_hex_append, IHlen, IHhex,
    (hex2_digits b Hb).
  split; [|reflexivity]. cbn [length Bytes.hex2 String.length]. lia.
Qed.

Lemma digest_bytes (msg : list Z) :
  length (SHA256.digest msg) = 32%nat
  /\ Forall (fun b => 0 <= b < 256) (SHA256.digest msg).
Proof.
  unfold SHA256.digest.
  set (h := fold_left SHA256.compress _ SHA256.H0).
  split; [reflexivity|].
  cbv [SHA256.words flat_map SHA256.be_bytes seq rev List.map app].
  repeat constructor; apply Z.mod_pos_bound; lia.
Qed.

(** X1.  The object name of any URL is 64 lower-case hexadecimal digits. *)
Theorem object_name_format (url : string) :
  String.length (Cache._format_object_name url) = 64%nat
  /\ all_hex (Cache._format_object_name url) = true.
Proof.
  unfold Cache._format_object_name, SHA256.hexdigest.
  destruct (digest_bytes (Bytes.of_string url)) as [Hlen Hrange].
  destruct (hex_format _ Hrange) as [Hl Hh].
  rewrite Hl, Hlen. split; [reflexivity | exact Hh].
Qed.

Lemma append_assoc (a b c : string) : (a ++ b) ++ c = a ++ (b ++ c).
Proof.
  induction a as [|x a IH]; [reflexivity|].
  change (String x ((a ++ b) ++ c) = String x (a ++ (b ++ c))).
  f_equal. exact IH.
Qed.

Lemma rsplit_last_aux_absent (sep : ascii) (acc s : string) :
  ~ In sep (list_ascii_of_string s) -> rsplit_last_aux sep acc s = acc.
Proof.
  revert acc. induction s as [|c s IH]; intros acc Hnot; [reflexivity|].
  cbn [rsplit_last_aux]. cbn [list_ascii_of_string In] in Hnot.
  destruct (Ascii.eqb_spec c sep) as [->|_].
  - exfalso. apply Hnot. left. reflexivity.
  - apply IH. intros Hin. apply Hnot. right. exact Hin.
Qed.

Lemma rsplit_last_aux_tail (sep : ascii) (p k acc : string) :
  ~ In sep (list_ascii_of_string k) ->
  rsplit_last_aux sep acc (p ++ String sep k) = k.
Proof.
  intros Hk. revert acc. induction p as [|c p IH]; intros acc.
  - simpl. rewrite Ascii.eqb_refl.
    apply rsplit_last_aux_absent. exact Hk.
  - simpl. destruct (Ascii.eqb c sep); apply IH.
Qed.

Lemma all_hex_no_slash (s : string) :
  all_hex s = true -> ~ In "/"%char (list_ascii_of_string s).
Proof.
  unfold all_hex. rewrite forallb_forall. intros Hall Hin.
  specialize (Hall _ Hin). discriminate Hall.
Qed.

(** X2.  The public address ends in the object name: what follows its last
    slash is the object name, whatever the bucket name is, and its length
    is 96 plus that of the bucket name. *)
Theorem public_url_last_segment (self : Client) (url : string) :
  rsplit_last "/" (Cache._format_public_url self url)
  = Cache._format_object_name url
  /\ String.length (Cache._format_public_url self url)
     = (96 + String.length (bucket_name self))%nat.
Proof.
  destruct (digest_bytes (Bytes.of_string url)) as [Hbytes Hrange].
  destruct (hex_format _ Hrange) as [Hlen Hhex].
  rewrite Hbytes in Hlen.
  change (Bytes.hex (SHA256.digest (Bytes.of_string url)))
    with (Cache._format_object_name url) in Hlen, Hhex.
  unfold Cache._format_public_url, rsplit_last. split.
  - rewrite <- append_assoc.
    change ("/" ++ Cache._format_object_name url)
      with (String "/" (Cache._format_object_name url)).
    apply rsplit_last_aux_tail, all_hex_no_slash, Hhex.
  - rewrite !length_append, Hlen. cbn [String.length]. lia.
Qed.

(* ===================================================================== *)
(** ** Further properties of [Client.store] *)
(* ===================================================================== *)

Section StoreMore.
Context `{Runtime}.

(** X3.  [store] changes nothing but the object under the URL's own key: every
    other key of every bucket keeps its object, an object that exists under
    the key is neither replaced nor deleted, and the cached client of
    [main.py] stays as it is. *)
Theorem store_touches_only_its_key (E : Env) (self : Client) (url : string)
    (w : World) :
  let w' := (run (Cache.store self url) E w).2 in
  let key := (bucket_name self, Cache._format_object_name url) in
  (forall k, k <> key -> objects w' !! k = objects w !! k)
  /\ (forall b, objects w !! key = Some b -> objects w' !! key = Some b)
  /\ _CACHE_CLIENT w' = _CACHE_CLIENT w.
Proof.
  cbv zeta. unfold Cache._format_object_name.
  destruct (store_frame E self url w) as (_ & Hclient & _).
  split; [|split; [|exact Hclient]].
  - intros k Hk.
    destruct (store_writes E self url w) as [[Hsame _] | (b & Hobj & _ & _)].
    + rewrite Hsame. reflexivity.
    + rewrite Hobj. apply lookup_insert_ne. congruence.
  - intros b Hb.
    destruct (store_writes E self url w) as [[Hsame _] | (b' & _ & _ & Hnone)].
    + rewrite Hsame. exact Hb.
    + congruence.
Qed.

(** X4.  [store] sends nothing, or one HEAD, or one HEAD and then one GET, each
    to the URL itself with a timeout of 10 and redirects allowed. *)
Theorem store_requests (E : Env) (self : Client) (url : string) (w : World) :
  let sent := List.filter is_request
                (performed w (run (Cache.store self url) E w).2) in
  let head := EvRequest "HEAD" url 10 true in
  let get := EvRequest "GET" url 10 true in
  sent = [] \/ sent = [head] \/ sent = [head; get].
Proof.
  cbv zeta.
  store_cases; path_done; try rewrite performed_refl by reflexivity;
    cbn [List.filter is_request]; auto.
Qed.

(** X5.  Whatever [store] uploads was eligible and absent, and its probe
    answered 200 with the Content-Type that the upload carries and a
    Content-Length that is a number not above [max_store_size]. *)
Theorem store_upload_conditions (E : Env) (self : Client) (url : string)
    (w : World) :
  let w' := (run (Cache.store self url) E w).2 in
  forall bucket name blob stored,
    In (EvUpload bucket name blob stored) (performed w w') ->
    eligible url = true
    /\ objects w !! (bucket_name self, SHA256.hexdigest url) = None
    /\ exists p v n,
         origin E (S (now w)) "HEAD" url = Ret p
         /\ status_code p = 200
         /\ headers_get (headers p) "Content-Type"
            = Some (blob_content_type blob)
         /\ headers_get (headers p) "Content-Length" = Some v
         /\ int_of_str v = Some n
         /\ n <= max_store_size self.
Proof.
  cbv zeta. unfold eligible. intros bucket name blob stored.
  store_cases; path_done; try rewrite performed_refl by reflexivity;
    cbn [In]; intros Hin;
    repeat match type of Hin with
           | _ \/ _ => destruct Hin as [Hin | Hin]
           end;
    try contradiction; try discriminate Hin.
  all: injection Hin as <- <- <- <-.
  all: match goal with
       | Hn : negb ?b = false |- _ => destruct b; [|discriminate Hn]
       end.
  all: split; [reflexivity|]; split;
    [ match goal with
      | Hp : has_value _ = false |- _ =>
          cbn [objects note_store_call] in Hp;
          destruct (objects w !! _); [discriminate Hp | reflexivity]
      end |].
  all: match goal with
       | Hs : (status_code ?p =? 200) = true,
         Hv : headers_get (headers ?p) "Content-Length" = Some ?v,
         Hn : int_of_str ?v = Some ?n,
         Hle : (?n >? _) = false |- _ =>
           exists p, v, n; apply Z.eqb_eq in Hs;
           rewrite Z.gtb_ltb in Hle; apply Z.ltb_ge in Hle
       end; repeat split; assumption.
Qed.

(** X6.  For an eligible, absent URL and a backend that answers the existence
    check: a HEAD answer other than 200 makes [store] log the status and
    return, without a GET; a GET answer other than 200 after an accepted
    probe makes it log that status and return, without an upload. *)
Theorem store_failed_download (E : Env) (self : Client) (url : string)
    (w : World) :
  eligible url = true ->
  objects w !! (bucket_name self, SHA256.hexdigest url) = None ->
  backend_fault E (now w) = None ->
  let w1 := record (EvRequest "HEAD" url 10 true)
              (record (EvExists (bucket_name self) (SHA256.hexdigest url))
                 (note_store_call url w)) in
  let failed status :=
    EvLog WARNING "Failed to download URL %r. Status code: %d"
      [ArgStr url; ArgInt status] in
  (forall p,
     origin E (S (now w)) "HEAD" url = Ret p -> status_code p <> 200 ->
     run (Cache.store self url) E w
     = (Ret tt, record (failed (status_code p)) w1))
  /\ (forall p g ct v n,
        origin E (S (now w)) "HEAD" url = Ret p -> status_code p = 200 ->
        headers_get (headers p) "Content-Type" = Some ct ->
        headers_get (headers p) "Content-Length" = Some v ->
        int_of_str v = Some n -> n <= max_store_size self ->
        origin E (S (S (now w))) "GET" url = Ret g -> status_code g <> 200 ->
        run (Cache.store self url) E w
        = (Ret tt,
           record (failed (status_code g))
             (record (EvRequest "GET" url 10 true) w1))).
Proof.
  unfold eligible. intros Hel Habs Hf. cbv zeta. split.
  - intros p Hhead Hst.
    unfold_store. rewrite Hel. cbn [negb]. cbv beta iota. clock.
    rewrite Hf. cbn [objects note_store_call]. rewrite Habs.
    cbn [has_value]. cbv beta iota. clock. rewrite Hhead.
    destruct (Z.eqb_spec (status_code p) 200) as [Heq|_]; [contradiction|].
    reflexivity.
  - intros p g ct v n Hhead Hp Hct Hcl Hint Hle Hget Hg.
    unfold_store. rewrite Hel. cbn [negb]. cbv beta iota. clock.
    rewrite Hf. cbn [objects note_store_call]. rewrite Habs.
    cbn [has_value]. cbv beta iota. clock.
    rewrite Hhead, Hp. cbn [Z.eqb Pos.eqb]. cbv beta iota.
    rewrite Hct. cbv beta iota. rewrite Hcl. cbv beta iota. rewrite Hint.
    cbv beta iota.
    replace (n >? max_store_size self) with false
      by (symmetry; rewrite Z.gtb_ltb; apply Z.ltb_ge; exact Hle).
    cbv beta iota. clock. rewrite Hget.
    destruct (Z.eqb_spec (status_code g) 200) as [Heq|_]; [contradiction|].
    reflexivity.
Qed.

End StoreMore.

(* ===================================================================== *)
(** ** Further properties of [Client.map] and [Client.is_stored] *)
(* ===================================================================== *)

Ltac map_cases :=
  unfold_map; clock;
  repeat (first [ progress cbn [isinstance_str isinstance_timedelta is_None
                                orb negb str_value has_value]
                | split_innermost ];
          cbv beta iota; clock).

Lemma undisturbed_refl (w : World) : undisturbed w w.
Proof.
  split; [reflexivity|]. split; [reflexivity|].
  exists []. split; [symmetry; apply app_nil_r | constructor].
Qed.

Lemma undisturbed_trans (w1 w2 w3 : World) :
  undisturbed w1 w2 -> undisturbed w2 w3 -> undisturbed w1 w3.
Proof.
  intros (Ho1 & Hc1 & e1 & Hj1 & Hq1) (Ho2 & Hc2 & e2 & Hj2 & Hq2).
  split; [congruence|]. split; [congruence|].
  exists (e1 ++ e2)%list. split.
  - rewrite Hj2, Hj1, app_assoc. reflexivity.
  - apply Forall_app. split; assumption.
Qed.

Lemma undisturbed_record (e : event) (w : World) :
  quiet e -> undisturbed w (record e w).
Proof.
  intros Hq. split; [reflexivity|]. split; [reflexivity|].
  exists [e]. split; [reflexivity | constructor; [exact Hq | constructor]].
Qed.

Lemma undisturbed_performed (w w' : World) :
  undisturbed w w' ->
  objects w' = objects w /\ store_calls w' = store_calls w
  /\ Forall quiet (performed w w').
Proof.
  intros (Ho & Hc & evs & Hj & Hq). split; [exact Ho|]. split; [exact Hc|].
  rewrite (performed_app _ _ _ Hj). exact Hq.
Qed.

Section MapMore.
Context `{Runtime}.

(** What [map] leaves untouched. *)
Lemma map_frame (E : Env) (self : Client) (url ttl : obj) (w : World) :
  let w' := (run (Cache.map self url ttl) E w).2 in
  objects w' = objects w
  /\ store_calls w' = store_calls w
  /\ _CACHE_CLIENT w' = _CACHE_CLIENT w
  /\ exists evs, journal w' = (journal w ++ evs)%list /\ Forall quiet evs.
Proof.
  cbv zeta.
  map_cases; cbn [snd]; repeat (split; [reflexivity|]);
    eexists; (split; [journal_norm; first [reflexivity | symmetry; apply app_nil_r]|]);
    repeat constructor.
Qed.

(** X7.  [map] never writes: for all arguments and environments the bucket
    and the record of [store] calls are as before, and it sends no request
    to an origin and no upload. *)
Theorem map_read_only (E : Env) (self : Client) (url ttl : obj) (w : World) :
  let w' := (run (Cache.map self url ttl) E w).2 in
  objects w' = objects w
  /\ store_calls w' = store_calls w
  /\ Forall quiet (performed w w').
Proof.
  cbv zeta. destruct (map_frame E self url ttl w) as (Ho & Hc & _ & evs & Hj & Hq).
  split; [exact Ho|]. split; [exact Hc|].
  rewrite (performed_app _ _ _ Hj). exact Hq.
Qed.

(** X8.  For a URL that is not cached [map] returns [None] whatever the [ttl],
    after the existence check alone: no credentials are asked for. *)
Theorem map_uncached (E : Env) (self : Client) (url : string) (ttl : obj)
    (w : World) :
  is_None ttl || isinstance_timedelta ttl = true ->
  objects w !! (bucket_name self, Cache._format_object_name url) = None ->
  backend_fault E (now w) = None ->
  run (Cache.map self (Str url) ttl) E w
  = (Ret None,
     record (EvExists (bucket_name self) (Cache._format_object_name url)) w).
Proof.
  intros Httl Habs Hf. unfold Cache._format_object_name in *.
  unfold_map. cbn [isinstance_str str_value]. cbv beta iota.
  rewrite Httl. cbv beta iota. rewrite Hf, Habs. reflexivity.
Qed.

(** X9.  [is_stored] and [map] without a [ttl] agree: [map] returns the public
    address exactly when [is_stored] returns [True], [None] when it returns
    [False], raises what it raises, and both leave the same world, having
    performed the existence check only. *)
Theorem is_stored_agrees_with_map (E : Env) (self : Client) (url : string)
    (w : World) :
  let stored := run (Cache.is_stored self url) E w in
  run (Cache.map self (Str url) None_) E w
  = (match stored.1 with
     | Ret true => Ret (Some (Cache._format_public_url self url))
     | Ret false => Ret None
     | Raise e => Raise e
     end,
     stored.2)
  /\ performed w stored.2
     = [EvExists (bucket_name self) (Cache._format_object_name url)].
Proof.
  cbv zeta. unfold Cache.is_stored. unfold_map.
  cbn [isinstance_str is_None orb str_value]. cbv beta iota.
  split.
  - destruct (backend_fault E (now w)); [reflexivity|].
    destruct (objects w !! _); reflexivity.
  - apply performed_app. reflexivity.
Qed.

(** X10.  After a call of [store] that wrote, and with a backend that answers,
    [is_stored] returns [True] and [map] returns the public address. *)
Theorem stored_then_resolved (E E' : Env) (self : Client) (url : string)
    (w : World) :
  let w' := (run (Cache.store self url) E w).2 in
  writes (performed w w') = 1%nat ->
  backend_fault E' (now w') = None ->
  (run (Cache.is_stored self url) E' w').1 = Ret true
  /\ (run (Cache.map self (Str url) None_) E' w').1
     = Ret (Some (Cache._format_public_url self url)).
Proof.
  cbv zeta. intros Hone Hf.
  destruct (store_writes E self url w) as [[_ Hz] | (b & Hobj & _ & _)];
    [rewrite Hz in Hone; discriminate Hone|].
  set (w' := (run (Cache.store self url) E w).2) in *.
  assert (Hin : objects w' !! (bucket_name self, SHA256.hexdigest url) = Some b)
    by (rewrite Hobj; apply lookup_insert_eq).
  clearbody w'.
  unfold Cache.is_stored. unfold_map.
  cbn [isinstance_str is_None orb str_value]. cbv beta iota.
  rewrite Hf, Hin. split; reflexivity.
Qed.

End MapMore.

(* ===================================================================== *)
(** ** Properties of [Client.fetch] and [Client.empty] *)
(* ===================================================================== *)

Ltac unfold_fetch :=
  unfold Contents.run2, Contents.fetch, Contents.empty, Contents.of_M,
    Contents.download_as_bytes, Contents.list_blobs, Contents.blob_delete,
    blob_exists, Cache._format_object_name, mbind, Contents.M2_bind, mret,
    Contents.M2_ret;
  cbv beta iota.

Section ContentsClaims.
Context `{Runtime}.
Import Contents.

(** The blob a writing [store] leaves under the key. *)
Lemma store_written_blob (E : Env) (self : Client) (url : string) (w : World) :
  let w' := (run (Cache.store self url) E w).2 in
  writes (performed w w') = 1%nat ->
  exists g ct,
    origin E (S (S (now w))) "GET" url = Ret g
    /\ status_code g = 200
    /\ objects w' !! (bucket_name self, SHA256.hexdigest url)
       = Some {| blob_contents := response_content g;
                 blob_content_type := ct;
                 blob_content_disposition :=
                   Cache._extract_content_disposition g |}.
Proof.
  cbv zeta.
  store_cases; path_done; try rewrite performed_refl by reflexivity;
    cbn [writes List.filter is_write length]; intros Hone;
    try discriminate Hone.
  eexists _, _. split; [reflexivity|].
  split; [apply Z.eqb_eq; assumption|]. apply lookup_insert_eq.
Qed.

(** X11.  After a call of [store] that wrote, [fetch] returns the body of the
    GET answer that [store] received, provided the backend answers the
    existence check and the download. *)
Theorem store_fetch_round_trip (E E' : Env) (self : Client) (url : string)
    (w : World) :
  let w' := (run (Cache.store self url) E w).2 in
  writes (performed w w') = 1%nat ->
  backend_fault E' (now w') = None ->
  backend_fault E' (S (now w')) = None ->
  exists g,
    origin E (S (S (now w))) "GET" url = Ret g
    /\ status_code g = 200
    /\ (run2 (fetch self url) E' (at_world w')).1
       = Ret (Some (response_content g)).
Proof.
  cbv zeta. intros Hone Hf0 Hf1.
  destruct (store_written_blob E self url w Hone) as (g & ct & Hget & Hst & Hobj).
  exists g. split; [exact Hget|]. split; [exact Hst|].
  set (w' := (run (Cache.store self url) E w).2) in *. clearbody w'.
  unfold_fetch. cbn [at_world world ops later backend_fault length Nat.add].
  rewrite Hf0, Hobj. cbn [has_value]. cbv beta iota.
  unfold clock. cbn [world ops length Nat.add]. clock.
  rewrite Hf1. cbn [objects record world]. rewrite Hobj. reflexivity.
Qed.

(** X12.  [fetch] leaves the bucket as it is and performs the existence check;
    for a URL that is not cached it returns [None] without a download, for
    a cached one the stored contents after one download. *)
Theorem fetch_read_only (E : Env) (self : Client) (url : string) (l : Ledger) :
  let r := run2 (fetch self url) E l in
  let key := (bucket_name self, Cache._format_object_name url) in
  objects (world r.2) = objects (world l)
  /\ performed (world l) (world r.2) = [EvExists key.1 key.2]
  /\ (objects (world l) !! key = None ->
      backend_fault E (clock l) = None ->
      r.1 = Ret None /\ ops r.2 = ops l)
  /\ (forall b,
        objects (world l) !! key = Some b ->
        backend_fault E (clock l) = None ->
        backend_fault E (S (clock l)) = None ->
        r.1 = Ret (Some (blob_contents b))
        /\ ops r.2 = (ops l ++ [OpDownload key.1 key.2])%list).
Proof.
  cbv zeta. unfold_fetch. unfold clock. cbn [later backend_fault fst snd].
  destruct (backend_fault E (length (ops l) + now (world l))) as [e|] eqn:Hf.
  { cbn [fst snd world]. split; [reflexivity|].
    split; [apply performed_app; reflexivity|]. split; discriminate. }
  destruct (objects (world l) !! _) as [b|] eqn:Hobj; cbn [has_value];
    cbv beta iota; cbn [world ops objects record].
  - clock. rewrite Nat.add_succ_r, Hobj.
    destruct (backend_fault E (S (length (ops l) + now (world l)))) as [e|];
      cbn [fst snd world ops note];
      (split; [reflexivity|]); (split; [apply performed_app; reflexivity|]);
      (split; [discriminate|]); intros b' [= <-] _ Hf1;
      [discriminate Hf1 | split; reflexivity].
  - cbn [fst snd world ops].
    split; [reflexivity|]. split; [apply performed_app; reflexivity|].
    split; [intros _ _; split; reflexivity | discriminate].
Qed.

Lemma names_in_spec (bucket : string) (m : gmap (string * string) Blob) :
  NoDup (names_in bucket m)
  /\ forall name, name ∈ names_in bucket m <-> is_Some (m !! (bucket, name)).
Proof.
  unfold names_in. split.
  - rewrite merge_sort_Permutation. apply NoDup_elements.
  - intros name. rewrite merge_sort_Permutation, elem_of_elements,
      elem_of_set_omap. split.
    + intros ([b n] & Hdom & Hpick). cbn [fst snd] in Hpick.
      destruct (decide (b = bucket)) as [->|_]; [|discriminate].
      injection Hpick as ->. apply elem_of_dom. exact Hdom.
    + intros Hsome. exists (bucket, name). split; [apply elem_of_dom, Hsome|].
      cbn [fst snd]. rewrite decide_True by reflexivity. reflexivity.
Qed.

(** The loop of [empty]: it only deletes listed names, and with a backend
    that answers it deletes every one of them. *)
Lemma delete_loop (E : Env) (bucket : string) (names : list string)
    (l : Ledger) :
  let r := run2 (for_each2 (fun name => blob_delete bucket name) names) E l in
  journal (world r.2) = journal (world l)
  /\ store_calls (world r.2) = store_calls (world l)
  /\ (forall k, objects (world r.2) !! k = objects (world l) !! k
                \/ (objects (world r.2) !! k = None
                    /\ exists n, k = (bucket, n) /\ n ∈ names))
  /\ ((forall n, backend_fault E n = None) ->
      NoDup names ->
      (forall n, n ∈ names -> is_Some (objects (world l) !! (bucket, n))) ->
      r.1 = Ret tt
      /\ forall n, n ∈ names -> objects (world r.2) !! (bucket, n) = None).
Proof.
  cbv zeta. revert l. induction names as [|n names IH]; intros l.
  - split; [reflexivity|]. split; [reflexivity|].
    split; [intros k; left; reflexivity|].
    intros _ _ _. split; [reflexivity|]. intros n Hn. inversion Hn.
  - change (run2 (for_each2 (fun name => blob_delete bucket name) (n :: names)) E l)
      with (match run2 (blob_delete bucket n) E l with
            | (Ret _, l') =>
                run2 (for_each2 (fun name => blob_delete bucket name) names) E l'
            | (Raise e, l') => (Raise e, l')
            end).
    destruct (run2 (blob_delete bucket n) E l) as [[[]|e] l1] eqn:Hstep;
      unfold run2, blob_delete in Hstep;
      destruct (backend_fault E (clock l)) as [e0|] eqn:Hf;
      try discriminate Hstep;
      destruct (objects (world l) !! (bucket, n)) as [b|] eqn:Hn;
      try discriminate Hstep; simplify_eq; cbv beta iota.
    + specialize (IH (note (OpDelete bucket n) (remove_object (bucket, n) l))).
      destruct IH as (Hj & Hc & Hobj & Hall).
      cbn [world note remove_object journal store_calls objects]
        in Hj, Hc, Hobj, Hall.
      split; [exact Hj|]. split; [exact Hc|]. split.
      * intros k. destruct (Hobj k) as [Hsame | (Hnone & n' & -> & Hin)].
        -- destruct (decide (k = (bucket, n))) as [->|Hne].
           ++ right. rewrite Hsame, lookup_delete_eq. split; [reflexivity|].
              exists n. split; [reflexivity | left].
           ++ left. rewrite Hsame. apply lookup_delete_ne. congruence.
        -- right. split; [exact Hnone|].
           exists n'. split; [reflexivity | right; exact Hin].
      * intros Hhealthy Hnodup Hpresent.
        apply NoDup_cons in Hnodup as [Hnotin Hnodup].
        destruct Hall as [Hret Hgone]; [exact Hhealthy | exact Hnodup | |].
        { intros n' Hin. rewrite lookup_delete_ne.
          - apply Hpresent. right. exact Hin.
          - intros [= ->]. contradiction. }
        split; [exact Hret|]. intros n' Hin.
        apply elem_of_cons in Hin as [->|Hin]; [|apply Hgone, Hin].
        destruct (Hobj (bucket, n)) as [Hsame | [Hnone _]]; [|exact Hnone].
        rewrite Hsame. apply lookup_delete_eq.
    + cbn [fst snd world note]. split; [reflexivity|]. split; [reflexivity|].
      split; [intros k; left; reflexivity|].
      intros Hhealthy. rewrite Hhealthy in Hf. discriminate Hf.
    + cbn [fst snd world note]. split; [reflexivity|]. split; [reflexivity|].
      split; [intros k; left; reflexivity|].
      intros Hhealthy. rewrite Hhealthy in Hf. discriminate Hf.
    + cbn [fst snd world note]. split; [reflexivity|]. split; [reflexivity|].
      split; [intros k; left; reflexivity|].
      intros _ _ Hpresent.
      destruct (Hpresent n) as [b Hb]; [left|congruence].
Qed.

(** X13.  With a backend that answers, [empty] returns having deleted every
    object of the client's bucket; objects of other buckets are untouched
    and nothing is added to the journal of the world; afterwards
    [is_stored] answers [False] for every URL. *)
Theorem empty_clears_bucket (E : Env) (self : Client) (l : Ledger) :
  (forall n, backend_fault E n = None) ->
  let r := run2 (empty self) E l in
  r.1 = Ret tt
  /\ (forall name, objects (world r.2) !! (bucket_name self, name) = None)
  /\ (forall bucket name,
        bucket <> bucket_name self ->
        objects (world r.2) !! (bucket, name)
        = objects (world l) !! (bucket, name))
  /\ journal (world r.2) = journal (world l)
  /\ (forall url E',
        backend_fault E' (now (world r.2)) = None ->
        (run (Cache.is_stored self url) E' (world r.2)).1 = Ret false).
Proof.
  intros Hhealthy. cbv zeta.
  enough (Hmain :
    (run2 (empty self) E l).1 = Ret tt
    /\ (forall name,
          objects (world (run2 (empty self) E l).2) !! (bucket_name self, name)
          = None)
    /\ (forall bucket name,
          bucket <> bucket_name self ->
          objects (world (run2 (empty self) E l).2) !! (bucket, name)
          = objects (world l) !! (bucket, name))
    /\ journal (world (run2 (empty self) E l).2) = journal (world l)).
  { destruct Hmain as (Hret & Hgone & Hother & Hj).
    repeat (split; [assumption|]).
    intros url E' Hf. unfold run, Cache.is_stored, blob_exists.
    rewrite Hf, Hgone. reflexivity. }
  unfold run2, empty, list_blobs, mbind, M2_bind. rewrite Hhealthy.
  destruct (names_in_spec (bucket_name self) (objects (world l)))
    as [Hnodup Hnames].
  pose proof (delete_loop E (bucket_name self)
                (names_in (bucket_name self) (objects (world l)))
                (note (OpList (bucket_name self)) l)) as (Hj & _ & Hobj & Hall).
  unfold run2 in Hj, Hobj, Hall. cbn [world note] in Hj, Hobj, Hall.
  destruct Hall as [Hret Hgone]; [exact Hhealthy | exact Hnodup | |].
  { intros n Hn. apply Hnames, Hn. }
  split; [exact Hret|]. split; [|split; [|exact Hj]].
  - intros name.
    destruct (objects (world l) !! (bucket_name self, name)) as [b|] eqn:Hb.
    + apply Hgone, Hnames. rewrite Hb. eexists. reflexivity.
    + destruct (Hobj (bucket_name self, name)) as [Hsame | [Hnone _]];
        [rewrite Hsame; exact Hb | exact Hnone].
  - intros bucket name Hne.
    destruct (Hobj (bucket, name)) as [Hsame | (_ & n & [= -> _] & _)];
      [exact Hsame | contradiction].
Qed.

(** X14.  Whatever the backend does, [empty] only deletes, and only in the
    client's bucket: every key is afterwards absent or holds what it held,
    and the keys of other buckets hold what they held. *)
Theorem empty_only_deletes (E : Env) (self : Client) (l : Ledger) :
  let r := run2 (empty self) E l in
  (forall k, objects (world r.2) !! k = None
             \/ objects (world r.2) !! k = objects (world l) !! k)
  /\ (forall bucket name,
        bucket <> bucket_name self ->
        objects (world r.2) !! (bucket, name)
        = objects (world l) !! (bucket, name))
  /\ journal (world r.2) = journal (world l)
  /\ store_calls (world r.2) = store_calls (world l).
Proof.
  cbv zeta. unfold run2, empty, list_blobs, mbind, M2_bind.
  destruct (backend_fault E (clock l)) as [e|].
  { cbn [fst snd world note].
    split; [intros k; right; reflexivity|]. repeat split; reflexivity. }
  pose proof (delete_loop E (bucket_name self)
                (names_in (bucket_name self) (objects (world l)))
                (note (OpList (bucket_name self)) l)) as (Hj & Hc & Hobj & _).
  unfold run2 in Hj, Hc, Hobj. cbn [world note] in Hj, Hc, Hobj.
  split; [|split; [|split; assumption]].
  - intros k. destruct (Hobj k) as [Hsame | [Hnone _]]; auto.
  - intros bucket name Hne.
    destruct (Hobj (bucket, name)) as [Hsame | (_ & n & [= -> _] & _)];
      [exact Hsame | contradiction].
Qed.

End ContentsClaims.

(* ===================================================================== *)
(** ** Further properties of the entry points of [main.py] *)
(* ===================================================================== *)

Section MainMore.
Context `{Runtime}.

(** X15.  [get_cache_client] creates the client once: a call that returns has
    the client cached, and any later call returns the same client without
    touching the world; a client created by the call has the configured
    bucket name and a bound of 5 MiB, one storage client having been made.
    A call that raises leaves no client cached. *)
Theorem get_cache_client_once (E E' : Env) (w : World) :
  let r := run Main.get_cache_client E w in
  (forall c, r.1 = Ret c ->
     _CACHE_CLIENT r.2 = Some c
     /\ run Main.get_cache_client E' r.2 = (Ret c, r.2)
     /\ (_CACHE_CLIENT w = None ->
         c = configured_client E /\ performed w r.2 = [EvStorageClient]))
  /\ (forall e, r.1 = Raise e ->
      _CACHE_CLIENT r.2 = None /\ objects r.2 = objects w).
Proof.
  cbv zeta. rewrite !get_cache_client_run.
  destruct (_CACHE_CLIENT w) as [c0|] eqn:Hc.
  - cbn [fst snd]. split; [|discriminate].
    intros c [= <-]. rewrite Hc. split; [reflexivity|].
    split; [reflexivity | discriminate].
  - cbv zeta. destruct (backend_fault E (now w)) as [e0|]; cbn [fst snd]; split;
      try discriminate.
    + intros e _. split; [exact Hc | reflexivity].
    + intros c [= <-]. split; [reflexivity|].
      split; [reflexivity|]. intros _. split; [reflexivity|].
      apply performed_app. reflexivity.
Qed.

(** X16.  [kcidb_cache_urls] fails before it touches anything: an event without
    ["data"] raises [KeyError], data that is no base64 raises the decoder's
    error, bytes that are no UTF-8 raise [UnicodeDecodeError], the world
    unchanged in each case. *)
Theorem kcidb_cache_urls_bad_input (E : Env) (event : gmap string string)
    (w : World) :
  let r := run (Main.kcidb_cache_urls event tt) E w in
  (event !! "data" = None -> r = (Raise (Exn KeyError "data"), w))
  /\ (forall data e,
        event !! "data" = Some data -> b64decode data = Raise e ->
        r = (Raise e, w))
  /\ (forall data raw,
        event !! "data" = Some data -> b64decode data = Ret raw ->
        utf8_valid (Bytes.of_string raw) = false ->
        r = (Raise (Exn UnicodeDecodeError "utf-8"), w)).
Proof.
  cbv zeta.
  unfold run, Main.kcidb_cache_urls, Main.event_getitem, Main.bytes_decode,
    lift, raise, mbind, M_bind, mret, M_ret.
  split; [|split].
  - intros ->. reflexivity.
  - intros data e -> Hb. cbv beta iota. rewrite Hb. reflexivity.
  - intros data raw -> Hb Hu. cbv beta iota. rewrite Hb. cbv beta iota.
    rewrite Hu. reflexivity.
Qed.

(** A loop over lines that are not eligible changes only the record of the
    calls. *)
Lemma for_each_store_skips (E : Env) (c : Client) (lines : list string)
    (w : World) :
  forallb (fun u => negb (eligible u)) lines = true ->
  let r := run (for_each (Cache.store c) lines) E w in
  r.1 = Ret tt /\ objects r.2 = objects w /\ journal r.2 = journal w
  /\ _CACHE_CLIENT r.2 = _CACHE_CLIENT w.
Proof.
  cbv zeta. revert w. induction lines as [|u lines IH]; intros w Hall.
  - repeat split.
  - cbn [forallb] in Hall. apply andb_true_iff in Hall as [Hu Hrest].
    apply negb_true_iff in Hu.
    rewrite for_each_cons, (store_skips E c u w Hu).
    destruct (IH (note_store_call u w) Hrest) as (Hr & Ho & Hj & Hc).
    repeat split; assumption.
Qed.

(** X17.  A batch none of whose lines is eligible costs nothing: the function
    returns, the bucket is unchanged, and nothing is performed except the
    creation of the storage client when none is cached. *)
Theorem kcidb_cache_urls_outside_sample (E : Env) (event : gmap string string)
    (data text : string) (w : World) :
  event !! "data" = Some data ->
  b64decode data = Ret text ->
  utf8_valid (Bytes.of_string text) = true ->
  forallb (fun u => negb (eligible u)) (splitlines text) = true ->
  (_CACHE_CLIENT w = None -> backend_fault E (now w) = None) ->
  let r := run (Main.kcidb_cache_urls event tt) E w in
  r.1 = Ret tt
  /\ objects r.2 = objects w
  /\ performed w r.2
     = match _CACHE_CLIENT w with Some _ => [] | None => [EvStorageClient] end.
Proof.
  intros Hdata Hb64 Hutf Hall Hfault. cbv zeta.
  assert (Hrun : run (Main.kcidb_cache_urls event tt) E w
                 = match run Main.get_cache_client E w with
                   | (Ret c, w1) =>
                       run (for_each (Cache.store c) (splitlines text)) E w1
                   | (Raise e, w1) => (Raise e, w1)
                   end).
  { unfold run, Main.kcidb_cache_urls, Main.event_getitem, Main.bytes_decode,
      lift, mbind, M_bind, mret, M_ret.
    rewrite Hdata. cbv beta iota. rewrite Hb64. cbv beta iota.
    rewrite Hutf. reflexivity. }
  rewrite Hrun, get_cache_client_run.
  destruct (_CACHE_CLIENT w) as [c|].
  - destruct (for_each_store_skips E c (splitlines text) w Hall)
      as (Hr & Ho & Hj & _).
    split; [exact Hr|]. split; [exact Ho|]. apply performed_refl, Hj.
  - cbv zeta. rewrite (Hfault eq_refl).
    destruct (for_each_store_skips E
                {| bucket_name := CACHE_BUCKET_NAME E;
                   max_store_size := 5 * 1024 * 1024 |}
                (splitlines text)
                (set_cache_client
                   {| bucket_name := CACHE_BUCKET_NAME E;
                      max_store_size := 5 * 1024 * 1024 |}
                   (record EvStorageClient w)) Hall) as (Hr & Ho & Hj & _).
    split; [exact Hr|]. split; [exact Ho|].
    apply performed_app. rewrite Hj. reflexivity.
Qed.

Lemma get_cache_client_frame (E : Env) (w : World) :
  undisturbed w (run Main.get_cache_client E w).2.
Proof.
  rewrite get_cache_client_run.
  destruct (_CACHE_CLIENT w); [apply undisturbed_refl|].
  cbv zeta. destruct (backend_fault E (now w)); cbn [snd].
  - apply undisturbed_record. split; reflexivity.
  - destruct (undisturbed_record EvStorageClient w) as (Ho & Hc & Hj);
      [split; reflexivity|].
    split; [exact Ho|]. split; [exact Hc | exact Hj].
Qed.

Lemma map_undisturbed (E : Env) (self : Client) (url ttl : obj) (w : World) :
  undisturbed w (run (Cache.map self url ttl) E w).2.
Proof.
  destruct (map_frame E self url ttl w) as (Ho & Hc & _ & Hj).
  split; [exact Ho|]. split; [exact Hc | exact Hj].
Qed.

(** X18.  The gateway never writes and never contacts an origin; and what it
    returns is 405 with [Allow: GET], 400 without headers, or 302 with an
    empty body and a [Location] that is not empty. *)
Theorem redirect_gateway_read_only (E : Env) (request : Main.Request)
    (w : World) :
  let r := run (Main.kcidb_cache_redirect request) E w in
  objects r.2 = objects w
  /\ store_calls r.2 = store_calls w
  /\ Forall quiet (performed w r.2)
  /\ (forall body status hdrs,
        r.1 = Ret (body, status, hdrs) ->
        (status = 405 /\ hdrs = {[ "Allow" := "GET" ]})
        \/ (status = 400 /\ hdrs = ∅)
        \/ (status = 302 /\ body = ""
            /\ exists location,
                 location <> "" /\ hdrs = {[ "Location" := location ]})).
Proof.
  cbv zeta.
  enough (Hboth :
    undisturbed w (run (Main.kcidb_cache_redirect request) E w).2
    /\ (forall body status hdrs,
          (run (Main.kcidb_cache_redirect request) E w).1
          = Ret (body, status, hdrs) ->
          (status = 405 /\ hdrs = {[ "Allow" := "GET" ]})
          \/ (status = 400 /\ hdrs = ∅)
          \/ (status = 302 /\ body = ""
              /\ exists location,
                   location <> "" /\ hdrs = {[ "Location" := location ]}))).
  { destruct Hboth as [Hu Hst].
    destruct (undisturbed_performed _ _ Hu) as (Ho & Hc & Hq).
    repeat (split; [assumption|]). exact Hst. }
  unfold run, Main.kcidb_cache_redirect, Main.bytes_decode_ascii, log, raise,
    mbind, M_bind, mret, M_ret.
  destruct (String.eqb (Main.method request) "GET").
  2:{ cbn [fst snd]. split; [apply undisturbed_refl|].
      intros body status hdrs [= <- <- <-]. left. split; reflexivity. }
  destruct (is_ascii (Main.query_string request)).
  2:{ cbn [fst snd]. split; [apply undisturbed_refl | discriminate]. }
  cbv beta iota. unfold nonempty.
  set (url := unquote (Main.query_string request)).
  assert (Hlog : forall lvl fmt args w1, undisturbed w1 (record (EvLog lvl fmt args) w1))
    by (intros; apply undisturbed_record; split; reflexivity).
  pose proof (Hlog DEBUG "URL %r" [ArgStr url] w) as H0.
  set (w0 := record (EvLog DEBUG "URL %r" [ArgStr url]) w) in *.
  clearbody w0.
  destruct (String.eqb_spec url "") as [Hempty|Hurl]; cbn [negb]; cbv beta iota.
  { cbn [fst snd]. split; [exact H0|].
    intros body status hdrs [= <- <- <-]. right. left. split; reflexivity. }
  pose proof (get_cache_client_frame E w0) as H1. unfold run in H1.
  destruct (Main.get_cache_client E w0) as [[c|e] w1]; cbn [snd] in H1.
  2:{ cbn [fst snd]. split; [|discriminate].
      exact (undisturbed_trans _ _ _ H0 H1). }
  pose proof (map_undisturbed E c (Str url) Main.CACHE_REDIRECT_TTL w1) as H2.
  unfold run in H2.
  destruct (Cache.map c (Str url) Main.CACHE_REDIRECT_TTL E w1)
    as [[[address|]|e] w2]; cbn [snd] in H2.
  - destruct (String.eqb_spec address "") as [Hadd|Hadd]; cbn [negb fst snd];
      (split;
       [exact (undisturbed_trans _ _ _ H0
                 (undisturbed_trans _ _ _ H1
                    (undisturbed_trans _ _ _ H2 (Hlog _ _ _ _))))|]);
      intros body status hdrs [= <- <- <-]; right; right;
      (split; [reflexivity|]); (split; [reflexivity|]);
      eexists; (split; [|reflexivity]); assumption.
  - cbn [fst snd].
    split;
      [exact (undisturbed_trans _ _ _ H0
                (undisturbed_trans _ _ _ H1
                   (undisturbed_trans _ _ _ H2 (Hlog _ _ _ _))))|].
    intros body status hdrs [= <- <- <-]; right; right;
      (split; [reflexivity|]); (split; [reflexivity|]);
      eexists; (split; [|reflexivity]); assumption.
  - cbn [fst snd]. split; [|discriminate].
    exact (undisturbed_trans _ _ _ H0 (undisturbed_trans _ _ _ H1 H2)).
Qed.

End MainMore.

(* ===================================================================== *)
(** ** Properties of [extract_fields] *)
(* ===================================================================== *)

Section FieldsClaims.
Import Fields.

Section ValueInd.
Variable P : value -> Prop.
Hypothesis HNone : P VNone.
Hypothesis HBool : forall b, P (VBool b).
Hypothesis HInt : forall z, P (VInt z).
Hypothesis HStr : forall s, P (VStr s).
Hypothesis HList : forall elems, Forall P elems -> P (VList elems).
Hypothesis HDict : forall items, Forall (fun kv => P (snd kv)) items -> P (VDict items).

Fixpoint value_nested_ind (v : value) : P v :=
  match v with
  | VNone => HNone
  | VBool b => HBool b
  | VInt z => HInt z
  | VStr s => HStr s
  | VList elems =>
      HList elems
        ((fix go (l : list value) : Forall P l :=
            match l with
            | [] => @List.Forall_nil _ P
            | x :: l' => @List.Forall_cons _ P x l' (value_nested_ind x) (go l')
            end) elems)
  | VDict items =>
      HDict items
        ((fix go (l : list (string * value)) : Forall (fun kv => P (snd kv)) l :=
            match l with
            | [] => @List.Forall_nil _ (fun kv => P (snd kv))
            | kv :: l' => @List.Forall_cons _ (fun kv => P (snd kv)) kv l' (value_nested_ind (snd kv)) (go l')
            end) items)
  end.
End ValueInd.

Lemma gen_seq_ok (g1 g2 : gen) :
  snd g1 = None -> snd g2 = None -> snd (gen_seq g1 g2) = None.
Proof. destruct g1 as [xs [e|]]; [discriminate | intros _ H2; exact H2]. Qed.

Lemma gen_concat_ok (gs : list gen) :
  Forall (fun g => snd g = None) gs -> snd (gen_concat gs) = None.
Proof.
  induction 1 as [|g gs Hg _ IH]; [reflexivity|].
  apply gen_seq_ok; assumption.
Qed.

Lemma gen_seq_in (g1 g2 : gen) (v : value) :
  In v (fst (gen_seq g1 g2)) -> In v (fst g1) \/ In v (fst g2).
Proof.
  destruct g1 as [xs [e|]]; cbn [gen_seq fst]; [auto|].
  intros Hin. apply in_app_or in Hin. exact Hin.
Qed.

Lemma gen_concat_in (gs : list gen) (v : value) :
  In v (fst (gen_concat gs)) -> exists g, In g gs /\ In v (fst g).
Proof.
  induction gs as [|g gs IH]; [intros []|].
  intros Hin. apply gen_seq_in in Hin as [Hin|Hin].
  - exists g. split; [left; reflexivity | exact Hin].
  - destruct (IH Hin) as (g' & Hg' & Hv). exists g'. split; [right|]; assumption.
Qed.

Lemma dict_get_in (d : list (string * value)) (key : string) (v : value) :
  dict_get d key = Some v -> In (key, v) d.
Proof.
  induction d as [|[k x] d IH]; [discriminate|].
  cbn [dict_get]. destruct (String.eqb_spec k key) as [->|_].
  - intros [= ->]. left. reflexivity.
  - intros Hget. right. apply IH, Hget.
Qed.

(** X19.  For a specification all of whose lists have one element, as those of
    [URL_FIELDS_SPEC], [extract_fields] raises nothing, whatever the data. *)
Theorem extract_fields_never_raises (spec : value) :
  single_lists spec = true ->
  forall data, snd (extract_fields spec data) = None.
Proof.
  induction spec as [| b | z | s | elems IH | items IH] using value_nested_ind;
    intros Hs data.
  - reflexivity.
  - destruct b; reflexivity.
  - reflexivity.
  - reflexivity.
  - destruct data; try reflexivity.
    destruct elems as [|s0 [|s1 rest]]; try discriminate Hs.
    cbn [extract_fields]. apply gen_seq_ok; [reflexivity|].
    apply gen_concat_ok, List.Forall_forall. intros g Hin.
    apply in_map_iff in Hin as (d & <- & _).
    apply Forall_inv in IH. apply IH. exact Hs.
  - destruct data; try reflexivity.
    cbn [extract_fields]. apply gen_seq_ok; [reflexivity|].
    cbn [single_lists] in Hs.
    induction items as [|[k s] items IHitems]; [reflexivity|].
    apply andb_true_iff in Hs as [Hs0 Hrest].
    apply gen_seq_ok.
    + destruct (dict_get _ k); [|reflexivity].
      apply (Forall_inv IH). exact Hs0.
    + apply IHitems; [exact (Forall_inv_tail IH) | exact Hrest].
Qed.

(** X20.  Every value [extract_fields] yields occurs in the data. *)
Theorem extract_fields_from_data (spec : value) :
  forall data v, In v (fst (extract_fields spec data)) -> occurs_in v data.
Proof.
  induction spec as [| b | z | s | elems IH | items IH] using value_nested_ind;
    intros data v Hin.
  - destruct data; destruct Hin.
  - destruct b; destruct data; cbn in Hin;
      try contradiction; destruct Hin as [<-|[]]; constructor.
  - destruct data; destruct Hin.
  - destruct data; destruct Hin.
  - destruct data as [| | | | ds |]; try (destruct Hin; fail).
    destruct elems as [|s0 [|s1 rest]]; try (destruct Hin; fail).
    cbn [extract_fields] in Hin. apply gen_seq_in in Hin as [[]|Hin].
    apply gen_concat_in in Hin as (g & Hg & Hv).
    apply in_map_iff in Hg as (d & <- & Hd).
    apply (occurs_elem v d ds Hd). apply (Forall_inv IH). exact Hv.
  - destruct data as [| | | | | dd]; try (destruct Hin; fail).
    cbn [extract_fields] in Hin. apply gen_seq_in in Hin as [[]|Hin].
    induction items as [|[k s] items IHitems]; [destruct Hin|].
    apply gen_seq_in in Hin as [Hin|Hin].
    + destruct (dict_get dd k) as [d|] eqn:Hget; [|destruct Hin].
      apply (occurs_item v k d dd (dict_get_in _ _ _ Hget)).
      apply (Forall_inv IH). exact Hin.
    + apply IHitems; [exact (Forall_inv_tail IH) | exact Hin].
Qed.

End FieldsClaims.

(* ===================================================================== *)
(** ** Concrete runs of the further properties *)
(* ===================================================================== *)

Section MoreRuns.
Import Scenario Cases.

(** X5, instance: the upload of [url92]. *)
Lemma store_upload_conditions_witness :
  eligible url92 = true
  /\ objects fresh !! (bucket_name client, SHA256.hexdigest url92) = None
  /\ exists p v n,
       origin serving 1 "HEAD" url92 = Ret p
       /\ status_code p = 200
       /\ headers_get (headers p) "Content-Type" = Some "text/plain"
       /\ headers_get (headers p) "Content-Length" = Some v
       /\ int_of_str v = Some n
       /\ n <= max_store_size client.
Proof.
  apply (store_upload_conditions serving client url92 fresh
           "kcidb-cache" key92
           {| blob_contents := "hello"; blob_content_type := "text/plain";
              blob_content_disposition :=
                "attachment; filename=" ++ dquote
                ++ "=?utf-8?q?build-92=2Etxt?=" ++ dquote |} true).
  vm_compute. do 3 right. left. reflexivity.
Defined.

(** X6, instance: an origin that answers 404 to the probe. *)
Lemma store_failed_download_witness :
  run (Cache.store client url92) missing fresh
  = (Ret tt,
     record (EvLog WARNING "Failed to download URL %r. Status code: %d"
               [ArgStr url92; ArgInt 404])
       (record (EvRequest "HEAD" url92 10 true)
          (record (EvExists "kcidb-cache" (SHA256.hexdigest url92))
             (note_store_call url92 fresh)))).
Proof.
  apply (proj1 (store_failed_download missing client url92 fresh
                  ltac:(vm_compute; reflexivity) ltac:(vm_compute; reflexivity)
                  eq_refl) not_found).
  - reflexivity.
  - vm_compute. discriminate.
Defined.

(** X8, instance: [url1] is not cached; no credentials are touched. *)
Lemma map_uncached_witness :
  run (Cache.map client (Str url1) Main.CACHE_REDIRECT_TTL) serving cached
  = (Ret None,
     record (EvExists "kcidb-cache" (Cache._format_object_name url1)) cached).
Proof.
  apply (map_uncached serving client url1 Main.CACHE_REDIRECT_TTL cached).
  - reflexivity.
  - vm_compute. reflexivity.
  - reflexivity.
Defined.

(** X10, instance: [url92] right after it was stored. *)
Lemma stored_then_resolved_witness :
  let w' := (run (Cache.store client url92) serving fresh).2 in
  (run (Cache.is_stored client url92) serving w').1 = Ret true
  /\ (run (Cache.map client (Str url92) None_) serving w').1
     = Ret (Some (Cache._format_public_url client url92)).
Proof.
  apply (stored_then_resolved serving serving client url92 fresh).
  - vm_compute. reflexivity.
  - reflexivity.
Defined.

(** X11, instance: [url92] stored, then fetched. *)
Lemma store_fetch_round_trip_witness :
  let w' := (run (Cache.store client url92) serving fresh).2 in
  exists g,
    origin serving 2 "GET" url92 = Ret g
    /\ status_code g = 200
    /\ (Contents.run2 (Contents.fetch client url92) serving
          (Contents.at_world w')).1
       = Ret (Some (response_content g)).
Proof.
  apply (store_fetch_round_trip serving serving client url92 fresh).
  - vm_compute. reflexivity.
  - reflexivity.
  - reflexivity.
Defined.

(** X13, instance: a bucket of two objects beside another bucket. *)
Lemma empty_clears_bucket_witness :
  let r := Contents.run2 (Contents.empty client) serving
             (Contents.at_world stocked) in
  r.1 = Ret tt
  /\ (forall name,
        objects (Contents.world r.2) !! (bucket_name client, name) = None)
  /\ (forall bucket name,
        bucket <> bucket_name client ->
        objects (Contents.world r.2) !! (bucket, name)
        = objects (Contents.world (Contents.at_world stocked)) !! (bucket, name))
  /\ journal (Contents.world r.2)
     = journal (Contents.world (Contents.at_world stocked))
  /\ (forall url E',
        backend_fault E' (now (Contents.world r.2)) = None ->
        (run (Cache.is_stored client url) E' (Contents.world r.2)).1
        = Ret false).
Proof.
  apply (empty_clears_bucket serving client (Contents.at_world stocked)).
  intros n. reflexivity.
Defined.

Example empty_run :
  let r := Contents.run2 (Contents.empty client) serving
             (Contents.at_world stocked) in
  Contents.ops r.2
  = [Contents.OpList "kcidb-cache"; Contents.OpDelete "kcidb-cache" "0000";
     Contents.OpDelete "kcidb-cache" key92]
  /\ objects (Contents.world r.2) !! ("archive", "readme") = Some hello
  /\ objects (Contents.world r.2) !! ("kcidb-cache", key92) = None.
Proof. vm_compute. repeat split. Qed.

(** X17, instance: a batch of [url1] alone. *)
Lemma kcidb_cache_urls_outside_sample_witness :
  let r := run (Main.kcidb_cache_urls url1_event tt) serving fresh in
  r.1 = Ret tt
  /\ objects r.2 = objects fresh
  /\ performed fresh r.2 = [EvStorageClient].
Proof.
  apply (kcidb_cache_urls_outside_sample serving url1_event
           "aHR0cHM6Ly9leGFtcGxlLm9yZy9sb2dzL2J1aWxkLTEudHh0Cg=="
           (url1 ++ LF) fresh).
  - vm_compute. reflexivity.
  - vm_compute. reflexivity.
  - vm_compute. reflexivity.
  - vm_compute. reflexivity.
  - intros _. reflexivity.
Defined.

(** X19, instance: [URL_FIELDS_SPEC] on data with one build. *)
Lemma extract_fields_never_raises_witness :
  snd (Fields.extract_fields Fields.URL_FIELDS_SPEC one_build) = None.
Proof.
  apply (extract_fields_never_raises Fields.URL_FIELDS_SPEC).
  reflexivity.
Defined.

(** X20, instance: the URL of an input file. *)
Lemma extract_fields_from_data_witness :
  occurs_in (Fields.VStr url1) one_build.
Proof.
  apply (extract_fields_from_data Fields.URL_FIELDS_SPEC one_build).
  vm_compute. left. reflexivity.
Defined.

Example extract_fields_run :
  Fields.extract_fields Fields.URL_FIELDS_SPEC one_build
  = ([Fields.VStr url1; Fields.VStr url92], None).
Proof. reflexivity. Qed.

End MoreRuns.
